(** * zotion: session, authentication and user-repository core

    A shallow embedding of
      - pkg/api/controller/auth_controller.go  (Login, Logout, Register,
        ValidateSession),
      - internal/migration/files/20250509083727_session.go (upSession),
      - pkg/repository user repository (GetById, GetAllUsers, Delete, ...),
    together with the properties the specification states about them.

    Conventions.
      - A Go result [(v, err)] is a pair [(v, option error)]; [None] is [nil].
      - A handler is a computation in the monad [M]: it threads the process
        state (store, clock, log of service calls) and may panic.
      - [time.Time] is a number of nanoseconds counted from Go's zero Time;
        [time.Duration] is a signed 64-bit number of nanoseconds.
      - zerolog calls only write log lines; they are left out. *)

From stdpp Require Import base strings gmap list.
From Stdlib Require Import ZArith Lia Ascii.

Open Scope string_scope.
Open Scope Z_scope.

(** ** Go values *)

(** The error kinds of the specification's taxonomy (section 7). *)
Inductive error : Type :=
| ErrInvalidInput
| ErrConflict
| ErrUnauthorized
| ErrExpired
| ErrNotFound
| ErrForbidden
| ErrInternal
| ErrOther (msg : string).

#[global] Instance error_eq_dec : EqDecision error.
Proof. solve_decision. Defined.

(** A Go [interface{}] value, as stored in [ctx.Locals] and in [fiber.Map]. *)
Inductive Any : Type :=
| ANil
| AString (s : string)
| ABool (b : bool)
| AInt (z : Z).

#[global] Instance Any_eq_dec : EqDecision Any.
Proof. solve_decision. Defined.

(** [v.(string)] in its two-result form: never panics. *)
Definition assert_string_ok (v : Any) : string * bool :=
  match v with
  | AString s => (s, true)
  | _ => ("", false)
  end.

(** ** time *)

Definition Time := Z.
Definition Duration := Z.

Definition min_int64 : Z := - 2 ^ 63.
Definition max_int64 : Z := 2 ^ 63 - 1.

(** Two's complement wrap-around of a 64-bit signed integer. *)
Definition wrap64 (z : Z) : Z := (z + 2 ^ 63) mod 2 ^ 64 - 2 ^ 63.

Definition time_Second : Duration := 1000000000.

(** [a * b] on [time.Duration]. *)
Definition Duration_mul (a b : Duration) : Duration := wrap64 (a * b).

(** [time.Duration(n)] for an integer [n]. *)
Definition Duration_of_int (n : Z) : Duration := wrap64 n.

(** [t.Add(d)]. *)
Definition Time_Add (t : Time) (d : Duration) : Time := t + d.

Definition zero_Time : Time := 0.

(** ** models *)

Record LoginRequest := {
  lr_Email : string;
  lr_Password : string
}.

Record LoginResponse := {
  UserId_of : string;
  SessionId_of : string;
  Token_of : string
}.

Record RegisterRequest := {
  rr_Email : string;
  rr_Username : string;
  rr_Password : string
}.

Record RegisterResponse := {
  reg_UserId : string
}.

(** [models.Session]: the fields the controller assigns and the columns of the
    session table. *)
Record Session := {
  Id : string;
  UserId : string;
  UserAgent : string;
  IpAddress : string;
  ExpiresAt : Time;
  CreatedAt : Time;
  UpdatedAt : Time
}.

#[global] Instance LoginRequest_eq_dec : EqDecision LoginRequest.
Proof. solve_decision. Defined.
#[global] Instance LoginResponse_eq_dec : EqDecision LoginResponse.
Proof. solve_decision. Defined.
#[global] Instance RegisterRequest_eq_dec : EqDecision RegisterRequest.
Proof. solve_decision. Defined.
#[global] Instance Session_eq_dec : EqDecision Session.
Proof. unfold Time. solve_decision. Defined.

Definition zero_LoginRequest : LoginRequest := {| lr_Email := ""; lr_Password := "" |}.
Definition zero_LoginResponse : LoginResponse :=
  {| UserId_of := ""; SessionId_of := ""; Token_of := "" |}.
Definition zero_RegisterRequest : RegisterRequest :=
  {| rr_Email := ""; rr_Username := ""; rr_Password := "" |}.
Definition zero_RegisterResponse : RegisterResponse := {| reg_UserId := "" |}.
Definition zero_Session : Session :=
  {| Id := ""; UserId := ""; UserAgent := ""; IpAddress := "";
     ExpiresAt := zero_Time; CreatedAt := zero_Time; UpdatedAt := zero_Time |}.

(** [config.Session] and [config.Database]: package-level configuration,
    loaded once at start. *)
Record Config := {
  Session_Expire : Z;
  Database_Dialect : string
}.

(** ** fiber *)

Definition StatusOK : Z := 200.
Definition StatusCreated : Z := 201.
Definition StatusBadRequest : Z := 400.
Definition StatusUnauthorized : Z := 401.
Definition StatusNotFound : Z := 404.
Definition StatusConflict : Z := 409.
Definition StatusInternalServerError : Z := 500.

(** What [ctx.JSON] is given: a [fiber.Map] or the login response struct. *)
Inductive Body : Type :=
| BodyMap (m : gmap string Any)
| BodyLogin (r : LoginResponse).

(** The response written by [ctx.Status(code).JSON(body)]. *)
Record Response := {
  status : Z;
  body : Body
}.

Definition fiber_Map (k : string) (v : Any) : Body := BodyMap {[ k := v ]}.

Definition JSON (code : Z) (b : Body) : Response := {| status := code; body := b |}.

(** The token a response hands to the caller, if any: the token of a login
    response, or a string a [fiber.Map] holds under the key ["token"]. *)
Definition issued_token (r : Response) : option string :=
  match body r with
  | BodyLogin lr => Some (Token_of lr)
  | BodyMap m =>
      match m !! "token" with
      | Some (AString t) => Some t
      | _ => None
      end
  end.

(** The request context: the outcome of [ctx.BodyParser] for each of the two
    request structs, the request headers, the client address and the values
    the middleware attached with [ctx.Locals]. *)
Record Ctx := {
  BodyParser_LoginRequest : LoginRequest * option error;
  BodyParser_RegisterRequest : RegisterRequest * option error;
  headers : gmap string string;
  IP : string;
  locals : gmap string Any
}.

(** [ctx.Get(key)]: the header, or the empty string. *)
Definition Get (ctx : Ctx) (key : string) : string := default "" (headers ctx !! key).

(** [ctx.Locals(key)]: the attached value, or nil. *)
Definition Locals (ctx : Ctx) (key : string) : Any := default ANil (locals ctx !! key).

(** ** Service interfaces *)

(** [models.AuthService], over the state [D] its implementation works on. *)
Class AuthService (D : Type) := {
  Login : LoginRequest → D → (LoginResponse * option error) * D;
  Register : RegisterRequest → D → (RegisterResponse * option error) * D
}.

(** [models.SessionService].  [Create s now] receives the reading [now] of the
    process clock that the persistence layer takes while it inserts the row. *)
Class SessionService (D : Type) := {
  Create : Session → Time → D → option error * D;
  GetById : string → D → (Session * option error) * D;
  Delete : string → D → option error * D
}.

(** The calls a handler makes on its two services, in order. *)
Inductive Call : Type :=
| CallAuthLogin (r : LoginRequest)
| CallAuthRegister (r : RegisterRequest)
| CallSessionCreate (s : Session)
| CallSessionGetById (id : string)
| CallSessionDelete (id : string).

(** ** The handler monad *)

(** The process state: the store behind the services, the process clock as
    the sequence of its successive readings with the number of readings taken
    so far, the configuration, and the log of service calls. *)
Record World (D : Type) := {
  db : D;
  clock : nat → Time;
  ticks : nat;
  config : Config;
  calls : list Call
}.
Arguments db {D} _.
Arguments clock {D} _.
Arguments ticks {D} _.
Arguments config {D} _.
Arguments calls {D} _.

Inductive Outcome (X : Type) : Type :=
| Done (x : X)
| Panic (msg : string).
Arguments Done {X} _.
Arguments Panic {X} _.

Definition M (D X : Type) : Type := World D → Outcome X * World D.

Definition M_ret_def {D X} (x : X) : M D X := λ w, (Done x, w).

Definition M_bind_def {D X Y} (k : X → M D Y) (m : M D X) : M D Y :=
  λ w, match m w with
       | (Done x, w') => k x w'
       | (Panic msg, w') => (Panic msg, w')
       end.

#[global] Instance M_ret {D} : MRet (M D) := @M_ret_def D.
#[global] Instance M_bind {D} : MBind (M D) := @M_bind_def D.

Definition ret {D X} (x : X) : M D X := mret x.

Definition panic {D X} (msg : string) : M D X := λ w, (Panic msg, w).

(** [v.(string)] in its one-result form: panics on any other dynamic type,
    with the runtime's message, which names that type. *)
Definition assert_string {D} (v : Any) : M D string :=
  match v with
  | AString s => ret s
  | ANil => panic "interface conversion: interface {} is nil, not string"
  | ABool _ => panic "interface conversion: interface {} is bool, not string"
  | AInt _ => panic "interface conversion: interface {} is int, not string"
  end.

Section Primitives.
Context {D : Type} `{!AuthService D} `{!SessionService D}.

Definition set_db (d : D) (w : World D) : World D :=
  {| db := d; clock := clock w; ticks := ticks w; config := config w; calls := calls w |}.

Definition log_call (c : Call) (w : World D) : World D :=
  {| db := db w; clock := clock w; ticks := ticks w; config := config w;
     calls := calls w ++ [c] |}.

Definition tick (w : World D) : World D :=
  {| db := db w; clock := clock w; ticks := S (ticks w); config := config w;
     calls := calls w |}.

(** [time.Now()]. *)
Definition time_Now : M D Time := λ w, (Done (clock w (ticks w)), tick w).

Definition config_Session_Expire : M D Z := λ w, (Done (Session_Expire (config w)), w).

Definition AuthService_Login (r : LoginRequest) : M D (LoginResponse * option error) :=
  λ w, let '(res, d) := Login r (db w) in (Done res, set_db d (log_call (CallAuthLogin r) w)).

Definition AuthService_Register (r : RegisterRequest)
  : M D (RegisterResponse * option error) :=
  λ w, let '(res, d) := Register r (db w) in
       (Done res, set_db d (log_call (CallAuthRegister r) w)).

Definition SessionService_Create (s : Session) : M D (option error) :=
  λ w, let w1 := log_call (CallSessionCreate s) w in
       let '(err, d) := Create s (clock w1 (ticks w1)) (db w1) in
       (Done err, set_db d (tick w1)).

Definition SessionService_GetById (id : string) : M D (Session * option error) :=
  λ w, let '(res, d) := GetById id (db w) in
       (Done res, set_db d (log_call (CallSessionGetById id) w)).

Definition SessionService_Delete (id : string) : M D (option error) :=
  λ w, let '(err, d) := Delete id (db w) in
       (Done err, set_db d (log_call (CallSessionDelete id) w)).

(** Modelled from the spec: [tokenutil.IsSessionExpired], whose source is
    not available.  Section 4.4: a session is expired when [now >= session.expires_at];
    [now] is a fresh reading of the process clock. *)
Definition tokenutil_IsSessionExpired (expiresAt : Time) : M D bool :=
  now ← time_Now;
  ret (expiresAt <=? now)%Z.
End Primitives.

(** ** pkg/api/controller/auth_controller.go *)

Section AuthController.
Context {D : Type} `{!AuthService D} `{!SessionService D}.

Definition AuthController_Login (ctx : Ctx) : M D Response :=
  match BodyParser_LoginRequest ctx with
  | (_, Some _) =>
      ret (JSON StatusBadRequest (fiber_Map "error" (AString "Invalid request")))
  | (loginRequest, None) =>
      '(loginResponse, err) ← AuthService_Login loginRequest;
      match err with
      | Some _ =>
          ret (JSON StatusUnauthorized (fiber_Map "error" (AString "Invalid credentials")))
      | None =>
          (* Get session information for register the session *)
          now ← time_Now;
          expire ← config_Session_Expire;
          let session :=
            {| Id := SessionId_of loginResponse;
               UserId := UserId_of loginResponse;
               UserAgent := Get ctx "User-Agent";
               IpAddress := IP ctx;
               ExpiresAt := Time_Add now (Duration_mul time_Second (Duration_of_int expire));
               CreatedAt := zero_Time;
               UpdatedAt := zero_Time |} in
          (* Create the session in the database *)
          err ← SessionService_Create session;
          match err with
          | Some _ =>
              ret (JSON StatusInternalServerError
                     (fiber_Map "error" (AString "Internal server error")))
          | None => ret (JSON StatusOK (BodyLogin loginResponse))
          end
      end
  end.

Definition AuthController_Logout (ctx : Ctx) : M D Response :=
  (* Get the user ID from the JWT token *)
  userId ← assert_string (Locals ctx "user_id");
  (* Get the session ID from the JWT token *)
  sessionId ← assert_string (Locals ctx "session_id");
  (* Delete the session from the database *)
  err ← SessionService_Delete sessionId;
  match err with
  | Some _ =>
      ret (JSON StatusInternalServerError
             (fiber_Map "error" (AString "Internal server error")))
  | None =>
      ret (JSON StatusOK (fiber_Map "message" (AString "Logged out successfully")))
  end.

Definition AuthController_Register (ctx : Ctx) : M D Response :=
  match BodyParser_RegisterRequest ctx with
  | (_, Some _) =>
      ret (JSON StatusBadRequest (fiber_Map "error" (AString "Invalid request")))
  | (registerRequest, None) =>
      '(_, err) ← AuthService_Register registerRequest;
      match err with
      | Some _ =>
          ret (JSON StatusConflict (fiber_Map "error" (AString "User already exists")))
      | None =>
          ret (JSON StatusCreated
                 (fiber_Map "message" (AString "User registered successfully")))
      end
  end.

Definition AuthController_ValidateSession (ctx : Ctx) : M D Response :=
  (* Get the session ID from the JWT token (set by middleware) *)
  let '(sessionId, ok) := assert_string_ok (Locals ctx "session_id") in
  if negb ok || bool_decide (sessionId = "") then
    ret (JSON StatusUnauthorized (fiber_Map "error" (AString "Invalid session")))
  else
  (* Get the user ID from the JWT token *)
  let '(userId, ok) := assert_string_ok (Locals ctx "user_id") in
  if negb ok || bool_decide (userId = "") then
    ret (JSON StatusUnauthorized (fiber_Map "error" (AString "Invalid session")))
  else
  (* Validate session exists and is active *)
  '(session, err) ← SessionService_GetById sessionId;
  match err with
  | Some _ =>
      ret (JSON StatusNotFound (fiber_Map "error" (AString "Session not found")))
  | None =>
      (* Additional validation - check if session belongs to the user *)
      if bool_decide (UserId session ≠ userId) then
        ret (JSON StatusUnauthorized (fiber_Map "error" (AString "Invalid session")))
      else
        expired ← tokenutil_IsSessionExpired (ExpiresAt session);
        if (expired : bool) then
          ret (JSON StatusUnauthorized (fiber_Map "error" (AString "Session expired")))
        else
          ret (JSON StatusOK (fiber_Map "valid" (ABool true)))
  end.
End AuthController.

(** ** The persistence collaborator *)

(** [models.Group] (pkg/models/group.go), without the back reference to its
    users. *)
Definition RoleType := string.
Definition RoleAdmin : RoleType := "admin".
Definition RoleUser : RoleType := "user".
Definition RoleGuest : RoleType := "guest".

Record Group := {
  Group_Id : string;
  Group_Name : string;
  Group_Description : string;
  Group_Role : RoleType;
  Group_CreatedAt : Time;
  Group_UpdatedAt : Time
}.

(** Modelled from the spec: [models.User], whose declaration is not
    available.
    One field per column the repository's queries name (id, name, email,
    username, avatar_url, active, preferences, created_at, updated_at), the
    password hash of section 3, and the Groups association that [Preload]
    fills. *)
Record User := {
  User_Id : string;
  User_Name : string;
  User_Username : string;
  User_Email : string;
  User_Password : string;
  User_AvatarUrl : string;
  User_Active : bool;
  User_Preferences : string;
  User_Groups : list Group;
  User_CreatedAt : Time;
  User_UpdatedAt : Time
}.

Definition zero_User : User :=
  {| User_Id := ""; User_Name := ""; User_Username := ""; User_Email := "";
     User_Password := ""; User_AvatarUrl := ""; User_Active := false;
     User_Preferences := ""; User_Groups := []; User_CreatedAt := zero_Time;
     User_UpdatedAt := zero_Time |}.

(** What the engine recorded from the session table's DDL. *)
Record SessionSchema := {
  fk_user_cascade : bool
}.

(** The datastore, as a working database behind an open connection: the rows
    of the user table, the rows of the session table keyed by their primary
    key, the session table's schema once the table is created, whether the
    connection enforces the foreign keys a schema declares, and the number of
    identifiers generated so far.
    Enforcement is the engine's and the connection's affair: postgres always
    enforces, sqlite only on a connection opened with foreign keys switched
    on, which is decided where the connection is opened ([database.NewGorm])
    and by nothing in the repository or the migration. *)
Record Store := {
  user_tbl : list User;
  session_tbl : gmap string Session;
  session_schema : option SessionSchema;
  foreign_keys : bool;
  uuid_seed : nat
}.

Definition set_user_tbl (us : list User) (d : Store) : Store :=
  {| user_tbl := us; session_tbl := session_tbl d;
     session_schema := session_schema d; foreign_keys := foreign_keys d;
     uuid_seed := uuid_seed d |}.

Definition set_session_tbl (ss : gmap string Session) (d : Store) : Store :=
  {| user_tbl := user_tbl d; session_tbl := ss;
     session_schema := session_schema d; foreign_keys := foreign_keys d;
     uuid_seed := uuid_seed d |}.

Definition set_session_schema (sch : option SessionSchema) (d : Store) : Store :=
  {| user_tbl := user_tbl d; session_tbl := session_tbl d;
     session_schema := sch; foreign_keys := foreign_keys d;
     uuid_seed := uuid_seed d |}.

Definition bump_uuid_seed (d : Store) : Store :=
  {| user_tbl := user_tbl d; session_tbl := session_tbl d;
     session_schema := session_schema d; foreign_keys := foreign_keys d;
     uuid_seed := S (uuid_seed d) |}.

(** [pat] occurs in [s]. *)
Definition contains (pat s : string) : bool :=
  match String.index 0 pat s with
  | Some _ => true
  | None => false
  end.

Definition user_exists (id : string) (d : Store) : bool :=
  existsb (λ u, bool_decide (User_Id u = id)) (user_tbl d).

(** Modelled from the spec: the SQL engine behind [tx.ExecContext], which is
    outside the repository.  It records the session table it is asked to create, with
    the foreign key the statement declares, and leaves an existing table as it
    is ([IF NOT EXISTS]); section 6 asks for cascade-delete on user removal. *)
Definition ExecContext (query : string) (d : Store) : option error * Store :=
  if contains "CREATE TABLE IF NOT EXISTS session" query then
    match session_schema d with
    | Some _ => (None, d)
    | None =>
        (None,
         set_session_schema
           (Some {| fk_user_cascade :=
                      contains "FOREIGN KEY (user_id) REFERENCES user(id) ON DELETE CASCADE"
                               query |})
           (set_session_tbl ∅ d))
    end
  else if contains "DROP TABLE IF EXISTS session" query then
    (None, set_session_schema None (set_session_tbl ∅ d))
  else (Some ErrInternal, d).

(** The declared foreign key of the session table is in force: the schema
    declares it and the connection enforces foreign keys. *)
Definition fk_enforced (d : Store) : bool :=
  foreign_keys d &&
  match session_schema d with
  | Some sch => fk_user_cascade sch
  | None => false
  end.

(** The engine's reaction to the removal of the user rows with key [id]:
    where the key declared ON DELETE CASCADE is in force, the session rows of
    that user go with them; where it is not, the session table is left
    alone. *)
Definition on_user_delete (id : string) (d : Store) : Store :=
  if fk_enforced d
  then set_session_tbl (filter (λ kv, UserId kv.2 ≠ id) (session_tbl d)) d
  else d.

(** ** internal/migration/files/20250509083727_session.go *)

Definition session_query_sqlite : string :=
"
		CREATE TABLE IF NOT EXISTS session (
			id TEXT PRIMARY KEY,
			user_id TEXT NOT NULL,
			user_agent TEXT NOT NULL,
			ip_address TEXT NOT NULL,
			expires_at datetime NOT NULL,
			created_at datetime NOT NULL,
			updated_at datetime NOT NULL,
			FOREIGN KEY (user_id) REFERENCES user(id) ON DELETE CASCADE
		);
		CREATE INDEX IF NOT EXISTS idx_session_user_id ON session (user_id);
		".

Definition session_query_postgres : string :=
"
		CREATE TABLE IF NOT EXISTS session (
			id uuid PRIMARY KEY,
			user_id uuid NOT NULL,
			user_agent varchar NOT NULL,
			ip_address varchar NOT NULL,
			expires_at timestamp NOT NULL,
			created_at timestamp NOT NULL,
			updated_at timestamp NOT NULL,
			FOREIGN KEY (user_id) REFERENCES user(id) ON DELETE CASCADE
		);
		CREATE INDEX IF NOT EXISTS idx_session_user_id ON session (user_id);
		".

(** The [switch] of [upSession]: the statement for the configured dialect, or
    the error the function returns without touching the database. *)
Definition upSession_query (dialect : string) : string + error :=
  if bool_decide (dialect = "sqlite") then inl session_query_sqlite
  else if bool_decide (dialect = "postgres") then inl session_query_postgres
  else if bool_decide (dialect = "mysql")
       then inr (ErrOther "mysql dialect is not supported yet")
  else inr (ErrOther ("unsupported dialect: " ++ dialect)).

Definition upSession (cfg : Config) (tx : Store) : option error * Store :=
  match upSession_query (Database_Dialect cfg) with
  | inr err => (Some err, tx)
  | inl query => ExecContext query tx
  end.

Definition downSession (tx : Store) : option error * Store :=
  ExecContext "DROP TABLE IF EXISTS session" tx.

(** ** gorm queries on the user table *)

Definition ErrRecordNotFound : error := ErrNotFound.

(** The column names of a select list such as ["id, name, email"]. *)
Fixpoint split_columns (s cur : string) : list string :=
  match s with
  | EmptyString => [cur]
  | String c s' =>
      if bool_decide (c = ","%char) then cur :: split_columns s' ""
      else if bool_decide (c = " "%char) then split_columns s' cur
      else split_columns s' (cur ++ String c "")
  end.

Definition selected (cols : list string) (col : string) : bool :=
  bool_decide (col ∈ cols).

(** Scanning a row into a fresh [models.User] under [Select(sel)]: a field
    receives its column when the select list names it and keeps its zero value
    otherwise.  Groups is an association, loaded by [Preload] only. *)
Definition scan_user (sel : string) (row : User) : User :=
  let cols := split_columns sel "" in
  {| User_Id := if selected cols "id" then User_Id row else "";
     User_Name := if selected cols "name" then User_Name row else "";
     User_Username := if selected cols "username" then User_Username row else "";
     User_Email := if selected cols "email" then User_Email row else "";
     User_Password := if selected cols "password" then User_Password row else "";
     User_AvatarUrl := if selected cols "avatar_url" then User_AvatarUrl row else "";
     User_Active := if selected cols "active" then User_Active row else false;
     User_Preferences :=
       if selected cols "preferences" then User_Preferences row else "";
     User_Groups := [];
     User_CreatedAt := if selected cols "created_at" then User_CreatedAt row else zero_Time;
     User_UpdatedAt := if selected cols "updated_at" then User_UpdatedAt row else zero_Time |}.

(** Without [Select] every column is read. *)
Definition scan_user_all (row : User) : User :=
  {| User_Id := User_Id row; User_Name := User_Name row;
     User_Username := User_Username row; User_Email := User_Email row;
     User_Password := User_Password row; User_AvatarUrl := User_AvatarUrl row;
     User_Active := User_Active row; User_Preferences := User_Preferences row;
     User_Groups := [];
     User_CreatedAt := User_CreatedAt row; User_UpdatedAt := User_UpdatedAt row |}.

(** [First(&user)] on a working database: a matching row, or
    [ErrRecordNotFound] with the destination left at its zero value.  Among
    several matching rows gorm takes the one of least primary key; the model
    takes the first of the table, so the table stands for its rows in key
    order and nothing below depends on which matching row is taken. *)
Definition gorm_First (scan : User → User) (cond : User → bool) (d : Store)
  : User * option error :=
  match List.find cond (user_tbl d) with
  | Some row => (scan row, None)
  | None => (zero_User, Some ErrRecordNotFound)
  end.

(** [Find(&users)] on a working database: every matching row, and no error
    (an empty result is none). *)
Definition gorm_Find (scan : User → User) (cond : User → bool) (d : Store)
  : list User * option error :=
  (List.map scan (List.filter cond (user_tbl d)), None).

(** ** pkg/repository: userRepository *)

Definition userRepository_GetByEmailOrUsername (emailOrUsername : string) (d : Store)
  : User * option error :=
  gorm_First scan_user_all
    (λ u, bool_decide (User_Email u = emailOrUsername)
          || bool_decide (User_Username u = emailOrUsername)) d.

Definition userRepository_GetByEmail (email : string) (d : Store) : User * option error :=
  match gorm_First scan_user_all (λ u, bool_decide (User_Email u = email)) d with
  | (_, Some err) => (zero_User, Some err)
  | (user, None) => (user, None)
  end.

Definition userRepository_GetById (id : string) (d : Store) : User * option error :=
  gorm_First (scan_user "id, name, email, avatar_url, created_at, updated_at")
    (λ u, bool_decide (User_Id u = id)) d.

(** [id] is the primary key of the user table: the engine refuses a second
    row under an id already present. *)
Definition userRepository_Create (user : User) (d : Store) : option error * Store :=
  if user_exists (User_Id user) d then (Some ErrConflict, d)
  else (None, set_user_tbl (user_tbl d ++ [user]) d).

(** One DELETE on the user table, which on a working database succeeds
    whether or not a row matches; what happens to the session rows is the
    engine's reaction, [on_user_delete]. *)
Definition userRepository_Delete (id : string) (d : Store) : option error * Store :=
  (None,
   on_user_delete id
     (set_user_tbl (List.filter (λ u, negb (bool_decide (User_Id u = id))) (user_tbl d)) d)).

Definition userRepository_GetAllUsers (d : Store) : list User * option error :=
  gorm_Find (scan_user "id, name, email, avatar_url")
    (λ u, bool_decide (User_Active u = true)) d.

Definition userRepository_GetAllInactiveUsers (d : Store) : list User * option error :=
  gorm_Find (scan_user "id, name, email, avatar_url")
    (λ u, bool_decide (User_Active u = false)) d.

(** ** The session store *)

(** Modelled from the spec: the [created_at] and [updated_at] of section 3.
    The login handler leaves both at the zero Time; gorm stamps such fields
    with its clock reading when it inserts the row. *)
Definition stamp (now : Time) (s : Session) : Session :=
  {| Id := Id s; UserId := UserId s; UserAgent := UserAgent s;
     IpAddress := IpAddress s; ExpiresAt := ExpiresAt s;
     CreatedAt := if bool_decide (CreatedAt s = zero_Time) then now else CreatedAt s;
     UpdatedAt := if bool_decide (UpdatedAt s = zero_Time) then now else UpdatedAt s |}.

(** Modelled from the spec: the session service and its repository, whose
    source is not available.  Section 4.3: [Create] inserts a row under the id the
    caller chose and fails with Conflict on an id collision; [GetById] fails
    with NotFound if the row is absent and does not look at the expiry;
    [Delete] is idempotent, deleting an absent id is not an error. *)
Definition sessionService_Create (s : Session) (now : Time) (d : Store)
  : option error * Store :=
  match session_tbl d !! Id s with
  | Some _ => (Some ErrConflict, d)
  | None =>
      if fk_enforced d && negb (user_exists (UserId s) d)
      then (Some ErrInternal, d)
      else (None, set_session_tbl (<[Id s := stamp now s]> (session_tbl d)) d)
  end.

(** Modelled from the spec: [SessionService.GetById] (section 4.3): NotFound if
    the row is absent; the expiry is the caller's to check. *)
Definition sessionService_GetById (id : string) (d : Store)
  : (Session * option error) * Store :=
  match session_tbl d !! id with
  | Some s => ((s, None), d)
  | None => ((zero_Session, Some ErrNotFound), d)
  end.

(** Modelled from the spec: [SessionService.Delete] (section 4.3): idempotent,
    deleting an absent id is not an error. *)
Definition sessionService_Delete (id : string) (d : Store) : option error * Store :=
  (None, set_session_tbl (delete id (session_tbl d)) d).

#[global] Instance Store_SessionService : SessionService Store := {
  Create := sessionService_Create;
  GetById := sessionService_GetById;
  Delete := sessionService_Delete
}.

(** ** The authentication service *)

(** The primitives the authentication service is built on: the salted one-way
    password hash with its verification, the generator of fresh identifiers
    and the token codec's [Issue]. *)
Record Crypto := {
  hash_password : string → string;
  verify_password : string → string → bool;
  UUIDv4 : nat → string;
  Issue : string → string → string
}.

Section SpecAuthService.
Variable crypto : Crypto.

(** Modelled from the spec: [AuthService.Login], whose source is not
    available.
    Sections 4.1 and 4.4: the user is looked up by email or username and the
    password is checked against the stored hash; a lookup miss and a hash
    mismatch give the same failure; on success a fresh session id is
    generated and a token binding user and session is issued. *)
Definition authService_Login (r : LoginRequest) (d : Store)
  : (LoginResponse * option error) * Store :=
  match userRepository_GetByEmailOrUsername (lr_Email r) d with
  | (_, Some _) => ((zero_LoginResponse, Some ErrUnauthorized), d)
  | (user, None) =>
      if verify_password crypto (User_Password user) (lr_Password r) then
        let sessionId := UUIDv4 crypto (uuid_seed d) in
        (({| UserId_of := User_Id user;
             SessionId_of := sessionId;
             Token_of := Issue crypto (User_Id user) sessionId |}, None),
         bump_uuid_seed d)
      else ((zero_LoginResponse, Some ErrUnauthorized), d)
  end.

Definition identifier_taken (r : RegisterRequest) (d : Store) : bool :=
  existsb (λ u, bool_decide (User_Email u = rr_Email r)
                || bool_decide (User_Username u = rr_Username r)) (user_tbl d).

(** Modelled from the spec: [AuthService.Register], whose source is not
    available.
    Sections 4.1 and 4.4: InvalidInput on malformed fields (empty email),
    Conflict on a duplicate identifier; the password is hashed before it is
    stored. *)
Definition authService_Register (r : RegisterRequest) (d : Store)
  : (RegisterResponse * option error) * Store :=
  if bool_decide (rr_Email r = "") then ((zero_RegisterResponse, Some ErrInvalidInput), d)
  else if identifier_taken r d then ((zero_RegisterResponse, Some ErrConflict), d)
  else
    let id := UUIDv4 crypto (uuid_seed d) in
    let user :=
      {| User_Id := id; User_Name := ""; User_Username := rr_Username r;
         User_Email := rr_Email r;
         User_Password := hash_password crypto (rr_Password r);
         User_AvatarUrl := ""; User_Active := true; User_Preferences := "";
         User_Groups := []; User_CreatedAt := zero_Time;
         User_UpdatedAt := zero_Time |} in
    match userRepository_Create user (bump_uuid_seed d) with
    | (Some err, d') => ((zero_RegisterResponse, Some err), d')
    | (None, d') => (({| reg_UserId := id |}, None), d')
    end.

Definition Store_AuthService : AuthService Store := {|
  Login := authService_Login;
  Register := authService_Register
|}.
End SpecAuthService.

(** ** Predicates used in the statements *)

(** The middleware attached a non-empty string under [key]. *)
Definition attached (ctx : Ctx) (key : string) : Prop :=
  ∃ s, Locals ctx key = AString s ∧ s ≠ "".

(** The response of a run, when the handler returned. *)
Definition response_of {D} (r : Outcome Response * World D) : option Response :=
  match r.1 with
  | Done resp => Some resp
  | Panic _ => None
  end.

(** The service calls a run added to the log. *)
Definition new_calls {D} (w : World D) (r : Outcome Response * World D) : list Call :=
  drop (length (calls w)) (calls r.2).

(** The session [AuthController.Login] hands to [SessionService.Create]. *)
Definition login_session (ctx : Ctx) (loginResponse : LoginResponse) (now : Time)
    (expire : Z) : Session :=
  {| Id := SessionId_of loginResponse;
     UserId := UserId_of loginResponse;
     UserAgent := Get ctx "User-Agent";
     IpAddress := IP ctx;
     ExpiresAt := Time_Add now (Duration_mul time_Second (Duration_of_int expire));
     CreatedAt := zero_Time;
     UpdatedAt := zero_Time |}.

(** The configured TTL, [config.Session.Expire] seconds, in nanoseconds. *)
Definition configured_ttl (cfg : Config) : Z := Session_Expire cfg * 1000000000.

(** Two session rows that differ at most in [user_agent] and [ip_address]. *)
Definition audit_equiv (s1 s2 : Session) : Prop :=
  Id s1 = Id s2 ∧ UserId s1 = UserId s2 ∧ ExpiresAt s1 = ExpiresAt s2 ∧
  CreatedAt s1 = CreatedAt s2 ∧ UpdatedAt s1 = UpdatedAt s2.

(** Two session tables with the same keys whose rows differ at most in
    [user_agent] and [ip_address]. *)
Definition tables_audit_equiv (t1 t2 : gmap string Session) : Prop :=
  ∀ k, option_Forall2 audit_equiv (t1 !! k) (t2 !! k).



(** A session row with other audit fields. *)
Definition with_client (ua ip : string) (s : Session) : Session :=
  {| Id := Id s; UserId := UserId s; UserAgent := ua; IpAddress := ip;
     ExpiresAt := ExpiresAt s; CreatedAt := CreatedAt s; UpdatedAt := UpdatedAt s |}.



(** ** Sample data *)

Module Sample.
Fixpoint tally (n : nat) : string :=
  match n with
  | O => ""
  | S n' => String "x"%char (tally n')
  end.

Definition crypto : Crypto :=
  {| hash_password := λ p, "h:" ++ p;
     verify_password := λ h p, bool_decide (h = "h:" ++ p);
     UUIDv4 := λ n, "id-" ++ tally (S n);
     Issue := λ u s, u ++ "." ++ s |}.

Definition alice : User :=
  {| User_Id := "u-alice"; User_Name := "Alice"; User_Username := "alice";
     User_Email := "alice@example.org"; User_Password := "h:wonderland";
     User_AvatarUrl := "/a.png"; User_Active := true; User_Preferences := "{}";
     User_Groups := []; User_CreatedAt := 5; User_UpdatedAt := 6 |}.

Definition cfg : Config := {| Session_Expire := 3600; Database_Dialect := "sqlite" |}.

Definition empty_store : Store :=
  {| user_tbl := []; session_tbl := ∅; session_schema := None; foreign_keys := true;
     uuid_seed := 0 |}.

(** The store after the session migration, with one registered user. *)
Definition store : Store :=
  set_user_tbl [alice] (upSession cfg empty_store).2.

Definition session_of_alice : Session :=
  {| Id := "s-1"; UserId := "u-alice"; UserAgent := "curl/8"; IpAddress := "10.0.0.1";
     ExpiresAt := 5000; CreatedAt := 10; UpdatedAt := 10 |}.

Definition stale_session : Session :=
  {| Id := "s-old"; UserId := "u-alice"; UserAgent := "curl/8"; IpAddress := "10.0.0.1";
     ExpiresAt := 50; CreatedAt := 10; UpdatedAt := 10 |}.

Definition store_with_sessions : Store :=
  set_session_tbl {[ "s-1" := session_of_alice; "s-old" := stale_session ]} store.

(** The same sessions, as if opened from another client. *)
Definition store_other_client : Store :=
  set_session_tbl (with_client "Mozilla/5.0" "192.168.7.7" <$> session_tbl store_with_sessions)
    store.

(** A store in which the next generated session id is already taken. *)
Definition store_id_taken : Store :=
  set_session_tbl {[ "id-x" := session_of_alice ]} store.

Definition world_of (d : Store) : World Store :=
  {| db := d; clock := λ n, 1000 + Z.of_nat n; ticks := 0; config := cfg; calls := [] |}.

Definition request (lb : LoginRequest * option error)
    (rb : RegisterRequest * option error) (ls : gmap string Any) : Ctx :=
  {| BodyParser_LoginRequest := lb; BodyParser_RegisterRequest := rb;
     headers := {[ "User-Agent" := "curl/8" ]}; IP := "10.0.0.1"; locals := ls |}.

Definition no_body_l : LoginRequest * option error :=
  (zero_LoginRequest, Some (ErrOther "Unprocessable Entity")).
Definition no_body_r : RegisterRequest * option error :=
  (zero_RegisterRequest, Some (ErrOther "Unprocessable Entity")).

Definition login_ok : Ctx :=
  request ({| lr_Email := "alice"; lr_Password := "wonderland" |}, None) no_body_r ∅.

Definition login_wrong_password : Ctx :=
  request ({| lr_Email := "alice"; lr_Password := "guess" |}, None) no_body_r ∅.

Definition register_empty_email : Ctx :=
  request no_body_l
    ({| rr_Email := ""; rr_Username := "bob"; rr_Password := "pw" |}, None) ∅.

Definition authenticated (sid uid : string) : Ctx :=
  request no_body_l no_body_r {[ "session_id" := AString sid; "user_id" := AString uid ]}.

Definition only_session_id : Ctx :=
  request no_body_l no_body_r {[ "session_id" := AString "s-1" ]}.
End Sample.

(** ** pkg/repository: the preferences of a user *)

(** [models.JSONB], the preferences blob, as its stored text; the empty
    literal [models.JSONB{}] is the empty blob. *)
Definition JSONB := string.
Definition empty_JSONB : JSONB := "".

Definition userRepository_GetPreferencesById (id : string) (d : Store)
  : JSONB * option error :=
  match gorm_First (scan_user "preferences") (λ u, bool_decide (User_Id u = id)) d with
  | (_, Some err) => (empty_JSONB, Some err)
  | (user, None) => (User_Preferences user, None)
  end.

(** What [Model(&models.User{}).Update("preferences", v)] does to a row it
    matches: the column gets the value, and gorm refreshes [updated_at] with
    the clock reading [now] it takes. *)
Definition set_preferences (v : JSONB) (now : Time) (u : User) : User :=
  {| User_Id := User_Id u; User_Name := User_Name u; User_Username := User_Username u;
     User_Email := User_Email u; User_Password := User_Password u;
     User_AvatarUrl := User_AvatarUrl u; User_Active := User_Active u;
     User_Preferences := v; User_Groups := User_Groups u;
     User_CreatedAt := User_CreatedAt u; User_UpdatedAt := now |}.

(** An UPDATE that matches no row is not an error. *)
Definition userRepository_UpdatePreferences (id : string) (preferences : JSONB)
    (now : Time) (d : Store) : option error * Store :=
  (None,
   set_user_tbl
     (List.map (λ u, if bool_decide (User_Id u = id)
                     then set_preferences preferences now u else u)
               (user_tbl d))
     d).

(** ** The migration command *)

(** What [runMigration] asks of its collaborators, in order. *)
Inductive MigrationCall : Type :=
| CallNewLogger
| CallNewGorm (dialect dsn : string)
| CallRunMigration.

Section RunMigration.
Context {Handle : Type}.
(** [database.NewGorm] and [migration.RunMigration], the logger left out of
    their arguments. *)
Variable NewGorm : string → string → Handle.
Variable RunMigration : Handle → option error.

(** [runMigration], with [config.Database.DSN] passed beside the
    configuration; the result comes with the calls made. *)
Definition runMigration (cfg : Config) (dsn : string)
  : option error * list MigrationCall :=
  if bool_decide (dsn = "") then
    (Some (ErrOther "database gorm dsn is required"), [CallNewLogger])
  else
    let db := NewGorm (Database_Dialect cfg) dsn in
    match RunMigration db with
    | Some err =>
        (Some err, [CallNewLogger; CallNewGorm (Database_Dialect cfg) dsn; CallRunMigration])
    | None =>
        (None, [CallNewLogger; CallNewGorm (Database_Dialect cfg) dsn; CallRunMigration])
    end.
End RunMigration.

(** ** Further predicates and sample data *)

(** The middleware attached some string, possibly empty, under [key]. *)
Definition string_local (ctx : Ctx) (key : string) : Prop :=
  ∃ s, Locals ctx key = AString s.

Module Fixture.
(** A request with the same locals as [Sample.authenticated], sent from
    another client and with a body. *)
Definition from_elsewhere (sid uid : string) : Ctx :=
  {| BodyParser_LoginRequest := ({| lr_Email := "mallory"; lr_Password := "x" |}, None);
     BodyParser_RegisterRequest := Sample.no_body_r;
     headers := {[ "User-Agent" := "Mozilla/5.0"; "X-Forwarded-For" := "203.0.113.9" ]};
     IP := "203.0.113.9";
     locals := {[ "session_id" := AString sid; "user_id" := AString uid ]} |}.

Definition bob : User :=
  {| User_Id := "u-bob"; User_Name := "Bob"; User_Username := "bob";
     User_Email := "bob@example.org"; User_Password := "h:builder";
     User_AvatarUrl := ""; User_Active := false; User_Preferences := "";
     User_Groups := []; User_CreatedAt := 7; User_UpdatedAt := 8 |}.

Definition two_users : Store := set_user_tbl [Sample.alice; bob] Sample.store.




(** A configuration whose TTL, in nanoseconds, is past the largest
    [time.Duration]. *)
Definition cfg_long_ttl : Config :=
  {| Session_Expire := 9223372037; Database_Dialect := "sqlite" |}.

Definition world_long_ttl : World Store :=
  {| db := Sample.store; clock := λ n, 1000 + Z.of_nat n; ticks := 0;
     config := cfg_long_ttl; calls := [] |}.

Definition register_bob : Ctx :=
  Sample.request Sample.no_body_l
    ({| rr_Email := "bob@example.org"; rr_Username := "bob"; rr_Password := "pw" |}, None) ∅.
End Fixture.

(** ** Proof automation *)

(** Runs a handler one layer down: the monad's operations and the service
    calls become plain functions of the world. *)
Ltac unfold_M :=
  unfold AuthService_Login, AuthService_Register, SessionService_Create,
    SessionService_GetById, SessionService_Delete, tokenutil_IsSessionExpired,
    time_Now, config_Session_Expire, assert_string, panic,
    mbind, M_bind, M_bind_def, ret, mret, M_ret, M_ret_def,
    set_db, log_call, tick; cbn beta iota.

(** * Properties *)

Lemma wrap64_in_range (z : Z) : min_int64 ≤ z ≤ max_int64 → wrap64 z = z.
Proof.
  unfold wrap64, min_int64, max_int64. intros Hz.
  rewrite Z.mod_small; lia.
Qed.

(** The duration the login handler adds is the configured TTL whenever that
    many nanoseconds fit a [time.Duration]. *)
Lemma login_duration_exact (expire : Z) :
  min_int64 ≤ expire * 1000000000 ≤ max_int64 →
  Duration_mul time_Second (Duration_of_int expire) = expire * 1000000000.
Proof.
  intros Hr. unfold Duration_mul, Duration_of_int, time_Second.
  rewrite (wrap64_in_range expire).
  - rewrite Z.mul_comm. by apply wrap64_in_range.
  - unfold min_int64, max_int64 in *. lia.
Qed.

Section ControllerFacts.
Context {D : Type} `{!AuthService D} `{!SessionService D}.

Lemma assert_string_ok_attached (ctx : Ctx) (key : string) :
  (let '(s, ok) := assert_string_ok (Locals ctx key) in
   negb ok || bool_decide (s = "")) = false ↔ attached ctx key.
Proof.
  unfold attached. destruct (Locals ctx key) as [|s|b|z]; simpl.
  - split; [done | intros (s & ? & _); done].
  - rewrite bool_decide_eq_false. split.
    + intros Hs. by exists s.
    + intros (s' & [= <-] & Hs). done.
  - split; [done | intros (s & ? & _); done].
  - split; [done | intros (s & ? & _); done].
Qed.

Lemma attached_dec (ctx : Ctx) (key : string) :
  attached ctx key ∨ ¬ attached ctx key.
Proof.
  unfold attached. destruct (Locals ctx key) as [|s|b|z];
    try (right; intros (s' & ? & _); done).
  destruct (decide (s = "")) as [-> | Hs].
  - right. intros (s' & [= <-] & Hs'). done.
  - left. by exists s.
Qed.

(** The two guards at the head of ValidateSession. *)
Lemma validate_session_guard (ctx : Ctx) (w : World D) :
  ¬ attached ctx "session_id" ∨ ¬ attached ctx "user_id" →
  AuthController_ValidateSession ctx w =
    (Done (JSON StatusUnauthorized (fiber_Map "error" (AString "Invalid session"))), w).
Proof.
  intros Hmiss. unfold AuthController_ValidateSession.
  pose proof (assert_string_ok_attached ctx "session_id") as Hs.
  pose proof (assert_string_ok_attached ctx "user_id") as Hu.
  destruct (assert_string_ok (Locals ctx "session_id")) as [sid oks].
  destruct (negb oks || bool_decide (sid = "")) eqn:Es; [done |].
  destruct (assert_string_ok (Locals ctx "user_id")) as [uid oku].
  destruct (negb oku || bool_decide (uid = "")) eqn:Eu; [done |].
  destruct Hmiss as [Hm | Hm]; exfalso; apply Hm; [by apply Hs | by apply Hu].
Qed.

(** C9.  When the middleware did not attach a non-empty string session_id, or
    did not attach a non-empty string user_id, ValidateSession returns (it
    does not panic) with 401 "Invalid session"; it has called no service and
    has touched neither the store nor the clock. *)
Theorem validate_session_missing_locals (ctx : Ctx) (w : World D) :
  ¬ attached ctx "session_id" ∨ ¬ attached ctx "user_id" →
  AuthController_ValidateSession ctx w =
    (Done (JSON StatusUnauthorized (fiber_Map "error" (AString "Invalid session"))), w) ∧
  response_of (AuthController_ValidateSession ctx w) =
    Some (JSON StatusUnauthorized (fiber_Map "error" (AString "Invalid session"))) ∧
  new_calls w (AuthController_ValidateSession ctx w) = [].
Proof.
  intros Hmiss. rewrite (validate_session_guard ctx w Hmiss).
  split; [reflexivity |]. split; [reflexivity |].
  unfold new_calls. cbn. by rewrite drop_all.
Qed.

(** What ValidateSession does once both locals are attached: one GetById
    call, then the owner check, then the expiry check on a fresh clock
    reading. *)
Lemma validate_session_run (ctx : Ctx) (w : World D) (sid uid : string) :
  Locals ctx "session_id" = AString sid → sid ≠ "" →
  Locals ctx "user_id" = AString uid → uid ≠ "" →
  AuthController_ValidateSession ctx w =
    let found := GetById sid (db w) in
    let session := found.1.1 in
    let w1 := set_db found.2 (log_call (CallSessionGetById sid) w) in
    match found.1.2 with
    | Some _ =>
        (Done (JSON StatusNotFound (fiber_Map "error" (AString "Session not found"))), w1)
    | None =>
        if bool_decide (UserId session ≠ uid) then
          (Done (JSON StatusUnauthorized (fiber_Map "error" (AString "Invalid session"))),
           w1)
        else if ExpiresAt session <=? clock w (ticks w) then
          (Done (JSON StatusUnauthorized (fiber_Map "error" (AString "Session expired"))),
           tick w1)
        else (Done (JSON StatusOK (fiber_Map "valid" (ABool true))), tick w1)
    end.
Proof.
  intros Hsid Hsne Huid Hune. unfold AuthController_ValidateSession.
  rewrite Hsid, Huid. cbn [assert_string_ok negb orb].
  rewrite !bool_decide_eq_false_2 by done. unfold_M.
  destruct (GetById sid (db w)) as [[s [e|]] d1]; cbn; [reflexivity |].
  destruct (bool_decide (UserId s ≠ uid)); cbn; [reflexivity |].
  destruct (ExpiresAt s <=? clock w (ticks w)); reflexivity.
Qed.

(** C1.  For a request carrying a session id [sid] and a claimed user id
    [uid], ValidateSession checks in this order: the session id does not
    resolve (GetById returns an error): 404; else the session found belongs
    to another user: 401; else it is expired, [now >= expires_at]: 401
    "Session expired"; else 200 with valid:true.  Success is returned only
    when all three checks pass, so a session that is still found but whose
    expires_at lies in the past is never answered with success. *)
Theorem validate_session_checks_in_order (ctx : Ctx) (w : World D) (sid uid : string) :
  Locals ctx "session_id" = AString sid → sid ≠ "" →
  Locals ctx "user_id" = AString uid → uid ≠ "" →
  let now := clock w (ticks w) in
  let found := (GetById sid (db w)).1 in
  let session := found.1 in
  let r := response_of (AuthController_ValidateSession ctx w) in
  (found.2 ≠ None →
     r = Some (JSON StatusNotFound (fiber_Map "error" (AString "Session not found")))) ∧
  (found.2 = None → UserId session ≠ uid →
     r = Some (JSON StatusUnauthorized (fiber_Map "error" (AString "Invalid session")))) ∧
  (found.2 = None → UserId session = uid → ExpiresAt session ≤ now →
     r = Some (JSON StatusUnauthorized (fiber_Map "error" (AString "Session expired")))) ∧
  (found.2 = None → UserId session = uid → now < ExpiresAt session →
     r = Some (JSON StatusOK (fiber_Map "valid" (ABool true)))) ∧
  (∀ resp, r = Some resp → status resp = StatusOK →
     found.2 = None ∧ UserId session = uid ∧ now < ExpiresAt session) ∧
  (∀ resp, found.2 = None → ExpiresAt session < now →
     r = Some resp → status resp ≠ StatusOK).
Proof.
  intros Hsid Hsne Huid Hune now found session r. subst r session found now.
  rewrite (validate_session_run ctx w sid uid) by done. cbn zeta.
  destruct (GetById sid (db w)) as [[s err] d1]. cbn [fst snd].
  split; [| split; [| split; [| split; [| split]]]].
  - destruct err; [reflexivity | done].
  - intros -> Hne. by rewrite bool_decide_eq_true_2.
  - intros -> Heq Hexp. rewrite bool_decide_eq_false_2 by (intros ?; done).
    apply Z.leb_le in Hexp. by rewrite Hexp.
  - intros -> Heq Hlive. rewrite bool_decide_eq_false_2 by (intros ?; done).
    apply Z.leb_gt in Hlive. by rewrite Hlive.
  - intros resp.
    destruct err as [e|]; [intros [= <-] Hst; vm_compute in Hst; discriminate |].
    case_bool_decide as Hown;
      [intros [= <-] Hst; vm_compute in Hst; discriminate |].
    destruct (ExpiresAt s <=? clock w (ticks w)) eqn:Hexp;
      [intros [= <-] Hst; vm_compute in Hst; discriminate |].
    intros _ _. apply Z.leb_gt in Hexp.
    split; [reflexivity |]. split; [| exact Hexp].
    destruct (decide (UserId s = uid)) as [Heq | Hne]; [exact Heq | by destruct Hown].
  - intros resp -> Hpast.
    assert ((ExpiresAt s <=? clock w (ticks w)) = true) as Hexp
      by (apply Z.leb_le; lia).
    destruct (bool_decide (UserId s ≠ uid)); [| rewrite Hexp];
      intros [= <-]; vm_compute; discriminate.
Qed.

(** C2.  When the body parses and AuthService.Login returns an error, the
    handler answers 401 "Invalid credentials"; the only service call of the
    run is that AuthService.Login call, so SessionService.Create is not
    called, and the store is exactly the one AuthService.Login returned: the
    handler itself leaves it untouched, as it does the clock. *)
Theorem login_bad_credentials_creates_no_session
    (ctx : Ctx) (w : World D) (req : LoginRequest) (resp : LoginResponse)
    (e : error) (d1 : D) :
  BodyParser_LoginRequest ctx = (req, None) →
  Login req (db w) = ((resp, Some e), d1) →
  AuthController_Login ctx w =
    (Done (JSON StatusUnauthorized (fiber_Map "error" (AString "Invalid credentials"))),
     {| db := d1; clock := clock w; ticks := ticks w; config := config w;
        calls := calls w ++ [CallAuthLogin req] |}).
Proof.
  intros Hparse Hlogin. unfold AuthController_Login. rewrite Hparse.
  unfold_M. rewrite Hlogin. reflexivity.
Qed.

(** C3.  When the body parses, AuthService.Login succeeds and the following
    SessionService.Create returns an error, the handler answers 500
    "Internal server error": the body is that error map, so the response
    carries no token, although AuthService.Login had produced one. *)
Theorem login_create_failure_is_internal_error
    (ctx : Ctx) (w : World D) (req : LoginRequest) (resp : LoginResponse)
    (e : error) (d1 d2 : D) :
  BodyParser_LoginRequest ctx = (req, None) →
  Login req (db w) = ((resp, None), d1) →
  Create (login_session ctx resp (clock w (ticks w)) (Session_Expire (config w)))
         (clock w (S (ticks w))) d1 = (Some e, d2) →
  let r := AuthController_Login ctx w in
  response_of r =
    Some (JSON StatusInternalServerError
            (fiber_Map "error" (AString "Internal server error"))) ∧
  response_of r ≫= issued_token = None ∧
  db r.2 = d2 ∧
  new_calls w r =
    [CallAuthLogin req;
     CallSessionCreate
       (login_session ctx resp (clock w (ticks w)) (Session_Expire (config w)))].
Proof.
  intros Hparse Hlogin Hcreate r. subst r.
  unfold AuthController_Login. rewrite Hparse. unfold_M.
  rewrite Hlogin. cbn -[Create Duration_mul].
  fold (login_session ctx resp (clock w (ticks w)) (Session_Expire (config w))).
  rewrite Hcreate. cbn.
  split; [reflexivity |].
  split; [reflexivity |].
  split; [reflexivity |].
  unfold new_calls. cbn. rewrite <- app_assoc. by rewrite drop_app_length.
Qed.

(** C7, as amended.  Register always returns, and its status is decided by
    two things only: 400 exactly when the body does not parse; once the body
    parses, 409 exactly when AuthService.Register returns an error, of
    whatever kind, and 201 exactly when it returns none. *)
Theorem register_status_by_outcome (ctx : Ctx) (w : World D) :
  ∃ r w', AuthController_Register ctx w = (Done r, w') ∧
    (status r = StatusBadRequest ↔ (BodyParser_RegisterRequest ctx).2 ≠ None) ∧
    (status r = StatusConflict ↔
       (BodyParser_RegisterRequest ctx).2 = None ∧
       (Register (BodyParser_RegisterRequest ctx).1 (db w)).1.2 ≠ None) ∧
    (status r = StatusCreated ↔
       (BodyParser_RegisterRequest ctx).2 = None ∧
       (Register (BodyParser_RegisterRequest ctx).1 (db w)).1.2 = None).
Proof.
  unfold AuthController_Register.
  destruct (BodyParser_RegisterRequest ctx) as [req [perr|]]; cbn [fst snd].
  - eexists _, _. split; [reflexivity |]. cbn.
    unfold StatusBadRequest, StatusConflict, StatusCreated. intuition congruence.
  - unfold_M.
    destruct (Register req (db w)) as [[res [e|]] d1]; cbn.
    + eexists _, _. split; [reflexivity |]. cbn.
      unfold StatusBadRequest, StatusConflict, StatusCreated. intuition congruence.
    + eexists _, _. split; [reflexivity |]. cbn.
      unfold StatusBadRequest, StatusConflict, StatusCreated. intuition congruence.
Qed.
End ControllerFacts.

(** ** The controller over the session store *)

Section ValidateOverStore.
Implicit Types (ctx : Ctx) (w : World Store) (s : Session).

(** ValidateSession over the session store: one lookup by key, then the
    owner check, then the expiry check on a fresh clock reading. *)
Lemma validate_session_run_store ctx w (sid uid : string) :
  Locals ctx "session_id" = AString sid → sid ≠ "" →
  Locals ctx "user_id" = AString uid → uid ≠ "" →
  AuthController_ValidateSession ctx w =
    let w1 := log_call (CallSessionGetById sid) w in
    match session_tbl (db w) !! sid with
    | None =>
        (Done (JSON StatusNotFound (fiber_Map "error" (AString "Session not found"))), w1)
    | Some s =>
        if bool_decide (UserId s ≠ uid) then
          (Done (JSON StatusUnauthorized (fiber_Map "error" (AString "Invalid session"))),
           w1)
        else if ExpiresAt s <=? clock w (ticks w) then
          (Done (JSON StatusUnauthorized (fiber_Map "error" (AString "Session expired"))),
           tick w1)
        else (Done (JSON StatusOK (fiber_Map "valid" (ABool true))), tick w1)
    end.
Proof.
  intros Hsid Hsne Huid Hune.
  rewrite (validate_session_run ctx w sid uid) by done.
  cbn [GetById Store_SessionService]. unfold sessionService_GetById.
  destruct w as [d clk n cfg cs]. cbn [db].
  destruct (session_tbl d !! sid) as [s|]; reflexivity.
Qed.

(** The outcome of ValidateSession depends on the stored row through its
    owner and its expiry only. *)
Lemma lookup_audit_equiv (t1 t2 : gmap string Session) (k : string) :
  tables_audit_equiv t1 t2 →
  match t1 !! k, t2 !! k with
  | Some s1, Some s2 => UserId s1 = UserId s2 ∧ ExpiresAt s1 = ExpiresAt s2
  | None, None => True
  | _, _ => False
  end.
Proof.
  intros Ht. specialize (Ht k).
  destruct Ht as [s1 s2 (_ & Hu & He & _) |]; done.
Qed.

(** C8.  Two runs of ValidateSession on the same request at the same clock
    reading, over session tables that differ at most in the user_agent and
    ip_address of their rows, have the same outcome. *)
Theorem validate_session_ignores_audit_fields ctx (w1 w2 : World Store) :
  tables_audit_equiv (session_tbl (db w1)) (session_tbl (db w2)) →
  clock w1 (ticks w1) = clock w2 (ticks w2) →
  (AuthController_ValidateSession ctx w1).1 = (AuthController_ValidateSession ctx w2).1.
Proof.
  intros Ht Hclk.
  destruct (attached_dec ctx "session_id") as [(sid & Hsid & Hsne) | Hs];
    [| by rewrite !validate_session_guard by (by left)].
  destruct (attached_dec ctx "user_id") as [(uid & Huid & Hune) | Hu];
    [| by rewrite !validate_session_guard by (by right)].
  rewrite !(validate_session_run_store ctx _ sid uid) by done. cbn zeta.
  pose proof (lookup_audit_equiv _ _ sid Ht) as Hrow.
  destruct (session_tbl (db w1) !! sid) as [s1|],
           (session_tbl (db w2) !! sid) as [s2|]; try done.
  destruct Hrow as [-> ->]. rewrite Hclk.
  destruct (bool_decide (UserId s2 ≠ uid)); [reflexivity |].
  destruct (ExpiresAt s2 <=? clock w2 (ticks w2)); reflexivity.
Qed.

(** C6.  Logout of a request carrying a user id and a session id answers 200
    "Logged out successfully" whether or not the session is stored, and
    again on a second call, when the session is already gone; the second
    call leaves the store as the first one left it. *)
Theorem logout_twice_same_success ctx w (uid sid : string) :
  Locals ctx "user_id" = AString uid →
  Locals ctx "session_id" = AString sid →
  let ok := JSON StatusOK (fiber_Map "message" (AString "Logged out successfully")) in
  let r1 := AuthController_Logout ctx w in
  let r2 := AuthController_Logout ctx r1.2 in
  response_of r1 = Some ok ∧
  session_tbl (db r1.2) !! sid = None ∧
  response_of r2 = Some ok ∧
  db r2.2 = db r1.2.
Proof.
  intros Huid Hsid ok r1 r2. subst ok r1 r2.
  unfold AuthController_Logout. rewrite Huid, Hsid. unfold_M.
  cbn. unfold sessionService_Delete. cbn.
  split; [reflexivity |]. split; [apply lookup_delete_eq |].
  split; [reflexivity |].
  unfold set_session_tbl. cbn. by rewrite delete_delete_eq.
Qed.
End ValidateOverStore.

Section LoginOverStore.
Context `{!AuthService Store}.
Implicit Types (ctx : Ctx) (w : World Store).

(** Within the range of [time.Duration]: after a login answered 200 exactly
    one session has been created, and it is stored under the session id of
    the response with [expires_at] = the handler's clock reading + the
    configured TTL and [created_at] = the next clock reading, taken by the
    insertion, so the two differ from the TTL by the time [delta] between the
    two readings. *)
Lemma login_session_expiry ctx w (r : Response) (delta : Z) :
  response_of (AuthController_Login ctx w) = Some r →
  status r = StatusOK →
  min_int64 ≤ configured_ttl (config w) ≤ max_int64 →
  0 ≤ clock w (S (ticks w)) - clock w (ticks w) ≤ delta →
  ∃ req resp s0 s,
    body r = BodyLogin resp ∧
    new_calls w (AuthController_Login ctx w) =
      [CallAuthLogin req; CallSessionCreate s0] ∧
    ExpiresAt s0 = clock w (ticks w) + configured_ttl (config w) ∧
    session_tbl (db (AuthController_Login ctx w).2) !! SessionId_of resp = Some s ∧
    ExpiresAt s = ExpiresAt s0 ∧
    CreatedAt s = clock w (S (ticks w)) ∧
    CreatedAt s + configured_ttl (config w) - delta ≤ ExpiresAt s
      ≤ CreatedAt s + configured_ttl (config w).
Proof.
  intros Hr Hok Httl Hclk. revert Hr.
  unfold AuthController_Login.
  destruct (BodyParser_LoginRequest ctx) as [req [perr|]];
    [intros [= <-]; vm_compute in Hok; discriminate |].
  unfold_M. destruct (Login req (db w)) as [[resp [e|]] d1]; cbn [fst snd];
    [intros [= <-]; vm_compute in Hok; discriminate |].
  cbn -[Duration_mul Duration_of_int].
  unfold sessionService_Create. cbn -[Duration_mul Duration_of_int].
  destruct (session_tbl d1 !! SessionId_of resp) as [old|] eqn:Hfree;
    [intros [= <-]; vm_compute in Hok; discriminate |].
  destruct (fk_enforced d1 && negb (user_exists (UserId_of resp) d1));
    [intros [= <-]; vm_compute in Hok; discriminate |].
  cbn -[Duration_mul Duration_of_int]. intros [= <-].
  eexists req, resp, _, _.
  split; [reflexivity |].
  split; [unfold new_calls; cbn; rewrite <- app_assoc; by rewrite drop_app_length |].
  cbn -[Duration_mul Duration_of_int].
  rewrite login_duration_exact by exact Httl.
  split; [reflexivity |].
  split; [apply lookup_insert_eq |].
  unfold stamp, zero_Time, Time_Add, configured_ttl in *. cbn.
  rewrite !bool_decide_eq_true_2 by reflexivity.
  split; [reflexivity |]. split; [reflexivity |]. lia.
Qed.
End LoginOverStore.

(** ** Referential integrity of the session table *)



Lemma user_exists_spec (id : string) (d : Store) :
  user_exists id d = true ↔ ∃ u, u ∈ user_tbl d ∧ User_Id u = id.
Proof.
  unfold user_exists. rewrite existsb_exists. split.
  - intros (u & Hin & Hid). exists u. split; [by apply list_elem_of_In |].
    by apply bool_decide_eq_true in Hid.
  - intros (u & Hin & Hid). exists u. split; [by apply list_elem_of_In |].
    by apply bool_decide_eq_true.
Qed.



#[local] Arguments user_exists : simpl never.

(** What the repository's Delete does to the two tables. *)
Lemma userRepository_Delete_tables (id : string) (d : Store) :
  let d' := (userRepository_Delete id d).2 in
  user_tbl d' = List.filter (λ u, negb (bool_decide (User_Id u = id))) (user_tbl d) ∧
  session_tbl d' =
    (if fk_enforced d
     then filter (λ kv : string * Session, UserId kv.2 ≠ id) (session_tbl d)
     else session_tbl d) ∧
  fk_enforced d' = fk_enforced d.
Proof.
  cbv zeta. unfold userRepository_Delete, on_user_delete. cbn [snd].
  replace (fk_enforced (set_user_tbl _ d)) with (fk_enforced d) by reflexivity.
  by destruct (fk_enforced d) eqn:Hfk.
Qed.


(** Where the declared key is not in force, the repository's Delete removes
    the user rows and leaves the session table as it was: the sessions of the
    deleted user stay. *)
Lemma userRepository_Delete_without_enforcement (id : string) (d : Store) :
  fk_enforced d = false →
  session_tbl (userRepository_Delete id d).2 = session_tbl d ∧
  user_exists id (userRepository_Delete id d).2 = false.
Proof.
  intros Hoff.
  destruct (userRepository_Delete_tables id d) as (Hut & Hst & _).
  rewrite Hoff in Hst. split; [exact Hst |].
  apply not_true_is_false. intros Hex.
  apply user_exists_spec in Hex as (u & Hin & Hid). rewrite Hut in Hin.
  apply list_elem_of_In, filter_In in Hin as [_ Hne].
  apply negb_true_iff, bool_decide_eq_false in Hne. done.
Qed.





(** ** The user repository *)

Lemma scan_user_GetById (row : User) :
  scan_user "id, name, email, avatar_url, created_at, updated_at" row =
  {| User_Id := User_Id row; User_Name := User_Name row; User_Username := "";
     User_Email := User_Email row; User_Password := "";
     User_AvatarUrl := User_AvatarUrl row; User_Active := false;
     User_Preferences := ""; User_Groups := [];
     User_CreatedAt := User_CreatedAt row; User_UpdatedAt := User_UpdatedAt row |}.
Proof. reflexivity. Qed.

Lemma scan_user_GetAllUsers (row : User) :
  scan_user "id, name, email, avatar_url" row =
  {| User_Id := User_Id row; User_Name := User_Name row; User_Username := "";
     User_Email := User_Email row; User_Password := "";
     User_AvatarUrl := User_AvatarUrl row; User_Active := false;
     User_Preferences := ""; User_Groups := [];
     User_CreatedAt := zero_Time; User_UpdatedAt := zero_Time |}.
Proof. reflexivity. Qed.

(** C10, as amended.  The User returned by GetById has no password hash and
    nothing but the id, name, email, avatar_url, created_at and updated_at of
    the row found (every other field is at its zero value).  Every User
    returned by GetAllUsers is read from a row whose active column is true
    and carries that row's id, name, email and avatar_url only: no password
    hash, and its own Active field is left at false. *)
Theorem user_queries_project_columns (d : Store) (id : string) :
  let '(u, err) := userRepository_GetById id d in
  (User_Password u = "" ∧ User_Username u = "" ∧ User_Active u = false ∧
   User_Preferences u = "" ∧ User_Groups u = []) ∧
  (match err with
   | None => ∃ row, row ∈ user_tbl d ∧ User_Id row = id ∧
       User_Id u = User_Id row ∧ User_Name u = User_Name row ∧
       User_Email u = User_Email row ∧ User_AvatarUrl u = User_AvatarUrl row ∧
       User_CreatedAt u = User_CreatedAt row ∧ User_UpdatedAt u = User_UpdatedAt row
   | Some _ => u = zero_User
   end) ∧
  (∀ v, v ∈ (userRepository_GetAllUsers d).1 →
     User_Password v = "" ∧ User_Active v = false ∧
     ∃ row, row ∈ user_tbl d ∧ User_Active row = true ∧
       v = scan_user "id, name, email, avatar_url" row ∧
       User_Id v = User_Id row ∧ User_Name v = User_Name row ∧
       User_Email v = User_Email row ∧ User_AvatarUrl v = User_AvatarUrl row).
Proof.
  unfold userRepository_GetById, userRepository_GetAllUsers, gorm_First, gorm_Find.
  destruct (List.find _ (user_tbl d)) as [row|] eqn:Hfind.
  - rewrite scan_user_GetById. cbn [fst snd].
    split; [done |]. split.
    + apply find_some in Hfind as [Hin Hid]. apply bool_decide_eq_true in Hid.
      exists row. by split; [apply list_elem_of_In |].
    + intros v Hv. cbn [fst] in Hv.
      apply list_elem_of_In, in_map_iff in Hv as (row' & <- & Hin).
      apply filter_In in Hin as [Hin Hact]. apply bool_decide_eq_true in Hact.
      rewrite scan_user_GetAllUsers. split; [done |]. split; [done |].
      exists row'. by split; [apply list_elem_of_In |].
  - split; [done |]. split; [done |].
    intros v Hv. cbn [fst] in Hv.
    apply list_elem_of_In, in_map_iff in Hv as (row' & <- & Hin).
    apply filter_In in Hin as [Hin Hact]. apply bool_decide_eq_true in Hact.
    rewrite scan_user_GetAllUsers. split; [done |]. split; [done |].
    exists row'. by split; [apply list_elem_of_In |].
Qed.

(** ** The modelled authentication service *)

(** A login the modelled AuthService refuses leaves the whole store as it
    was. *)
Lemma authService_Login_failure_keeps_store (crypto : Crypto) (r : LoginRequest)
    (d d1 : Store) (resp : LoginResponse) (e : error) :
  authService_Login crypto r d = ((resp, Some e), d1) → d1 = d.
Proof.
  unfold authService_Login.
  destruct (userRepository_GetByEmailOrUsername (lr_Email r) d) as [user [err|]];
    [by intros [= _ _ <-] |].
  destruct (verify_password crypto (User_Password user) (lr_Password r));
    [discriminate | by intros [= _ _ <-]].
Qed.

(** Whatever the store, a parsed registration with an empty email is refused
    with InvalidInput by the modelled AuthService and answered 409 by the
    handler. *)
Lemma register_empty_email_is_conflict (crypto : Crypto) (ctx : Ctx) (w : World Store)
    (req : RegisterRequest) :
  BodyParser_RegisterRequest ctx = (req, None) →
  rr_Email req = "" →
  (authService_Register crypto req (db w)).1.2 = Some ErrInvalidInput ∧
  response_of (@AuthController_Register Store (Store_AuthService crypto) ctx w) =
    Some (JSON StatusConflict (fiber_Map "error" (AString "User already exists"))).
Proof.
  intros Hparse Hemail. unfold AuthController_Register. rewrite Hparse. unfold_M.
  cbn [Register Store_AuthService]. unfold authService_Register.
  rewrite Hemail. by cbn.
Qed.

(** ** The statements at sample inputs *)

Lemma relabel_audit_equiv (t : gmap string Session) (ua ip : string) :
  tables_audit_equiv t (with_client ua ip <$> t).
Proof.
  intros k. rewrite lookup_fmap. destruct (t !! k) as [s|]; constructor.
  by unfold audit_equiv.
Qed.

(** An expired session of the right user is answered 401 "Session expired". *)
Lemma validate_session_checks_in_order_witness :
  let ctx := Sample.authenticated "s-old" "u-alice" in
  let w := Sample.world_of Sample.store_with_sessions in
  (Locals ctx "session_id" = AString "s-old" ∧ "s-old" ≠ "" ∧
   Locals ctx "user_id" = AString "u-alice" ∧ "u-alice" ≠ "") ∧
  (GetById "s-old" (db w)).1 = (Sample.stale_session, None) ∧
  response_of (AuthController_ValidateSession ctx w) =
    Some (JSON StatusUnauthorized (fiber_Map "error" (AString "Session expired"))).
Proof.
  cbv zeta.
  assert (Hs : Locals (Sample.authenticated "s-old" "u-alice") "session_id"
               = AString "s-old") by reflexivity.
  assert (Hu : Locals (Sample.authenticated "s-old" "u-alice") "user_id"
               = AString "u-alice") by reflexivity.
  assert (Hsne : "s-old" ≠ "") by discriminate.
  assert (Hune : "u-alice" ≠ "") by discriminate.
  split; [done |]. split; [reflexivity |].
  refine (proj1 (proj2 (proj2
    (validate_session_checks_in_order
       (Sample.authenticated "s-old" "u-alice")
       (Sample.world_of Sample.store_with_sessions)
       "s-old" "u-alice" Hs Hsne Hu Hune))) _ _ _).
  - reflexivity.
  - reflexivity.
  - vm_compute. discriminate.
Defined.

Lemma login_bad_credentials_creates_no_session_witness :
  let ctx := Sample.login_wrong_password in
  let w := Sample.world_of Sample.store in
  let req := {| lr_Email := "alice"; lr_Password := "guess" |} in
  BodyParser_LoginRequest ctx = (req, None) ∧
  authService_Login Sample.crypto req (db w)
    = ((zero_LoginResponse, Some ErrUnauthorized), Sample.store) ∧
  @AuthController_Login Store (Store_AuthService Sample.crypto) _ ctx w =
    (Done (JSON StatusUnauthorized (fiber_Map "error" (AString "Invalid credentials"))),
     {| db := Sample.store; clock := clock w; ticks := ticks w; config := config w;
        calls := calls w ++ [CallAuthLogin req] |}).
Proof.
  cbv zeta.
  split; [reflexivity |]. split; [reflexivity |].
  apply (@login_bad_credentials_creates_no_session Store
           (Store_AuthService Sample.crypto) _
           Sample.login_wrong_password (Sample.world_of Sample.store)
           {| lr_Email := "alice"; lr_Password := "guess" |}
           zero_LoginResponse ErrUnauthorized Sample.store);
    reflexivity.
Defined.

(** A login whose fresh session id collides with a stored one. *)
Lemma login_create_failure_is_internal_error_witness :
  let ctx := Sample.login_ok in
  let w := Sample.world_of Sample.store_id_taken in
  let req := {| lr_Email := "alice"; lr_Password := "wonderland" |} in
  let resp := {| UserId_of := "u-alice"; SessionId_of := "id-x";
                 Token_of := "u-alice.id-x" |} in
  let r := @AuthController_Login Store (Store_AuthService Sample.crypto) _ ctx w in
  BodyParser_LoginRequest ctx = (req, None) ∧
  authService_Login Sample.crypto req (db w)
    = ((resp, None), bump_uuid_seed Sample.store_id_taken) ∧
  response_of r =
    Some (JSON StatusInternalServerError
            (fiber_Map "error" (AString "Internal server error"))) ∧
  response_of r ≫= issued_token = None.
Proof.
  cbv zeta.
  split; [reflexivity |]. split; [reflexivity |].
  pose proof (@login_create_failure_is_internal_error Store
                (Store_AuthService Sample.crypto) _
                Sample.login_ok (Sample.world_of Sample.store_id_taken)
                {| lr_Email := "alice"; lr_Password := "wonderland" |}
                {| UserId_of := "u-alice"; SessionId_of := "id-x";
                   Token_of := "u-alice.id-x" |}
                ErrConflict
                (bump_uuid_seed Sample.store_id_taken)
                (bump_uuid_seed Sample.store_id_taken)
                eq_refl eq_refl eq_refl) as H.
  cbv zeta in H. destruct H as (H1 & H2 & _). split; [exact H1 | exact H2].
Defined.

Lemma login_session_expiry_witness :
  let ctx := Sample.login_ok in
  let w := Sample.world_of Sample.store in
  let run := @AuthController_Login Store (Store_AuthService Sample.crypto) _ ctx w in
  let r := JSON StatusOK (BodyLogin {| UserId_of := "u-alice"; SessionId_of := "id-x";
                                       Token_of := "u-alice.id-x" |}) in
  response_of run = Some r ∧
  (min_int64 ≤ configured_ttl (config w) ≤ max_int64) ∧
  (0 ≤ clock w (S (ticks w)) - clock w (ticks w) ≤ 1) ∧
  ∃ req resp s0 s,
    body r = BodyLogin resp ∧
    new_calls w run = [CallAuthLogin req; CallSessionCreate s0] ∧
    ExpiresAt s0 = clock w (ticks w) + configured_ttl (config w) ∧
    session_tbl (db run.2) !! SessionId_of resp = Some s ∧
    ExpiresAt s = ExpiresAt s0 ∧
    CreatedAt s = clock w (S (ticks w)) ∧
    CreatedAt s + configured_ttl (config w) - 1 ≤ ExpiresAt s
      ≤ CreatedAt s + configured_ttl (config w).
Proof.
  cbv zeta.
  assert (Httl : min_int64 ≤ configured_ttl (config (Sample.world_of Sample.store))
                 ≤ max_int64) by (vm_compute; split; discriminate).
  assert (Hclk : 0 ≤ clock (Sample.world_of Sample.store)
                        (S (ticks (Sample.world_of Sample.store)))
                     - clock (Sample.world_of Sample.store)
                         (ticks (Sample.world_of Sample.store)) ≤ 1)
    by (vm_compute; split; discriminate).
  split; [reflexivity |]. split; [exact Httl |]. split; [exact Hclk |].
  exact (@login_session_expiry (Store_AuthService Sample.crypto)
           Sample.login_ok (Sample.world_of Sample.store) _ 1
           eq_refl eq_refl Httl Hclk).
Defined.



Lemma logout_twice_same_success_witness :
  let ctx := Sample.authenticated "s-1" "u-alice" in
  let w := Sample.world_of Sample.store_with_sessions in
  let ok := JSON StatusOK (fiber_Map "message" (AString "Logged out successfully")) in
  (Locals ctx "user_id" = AString "u-alice" ∧ Locals ctx "session_id" = AString "s-1") ∧
  is_Some (session_tbl (db w) !! "s-1") ∧
  response_of (AuthController_Logout ctx w) = Some ok ∧
  session_tbl (db (AuthController_Logout ctx w).2) !! "s-1" = None ∧
  response_of (AuthController_Logout ctx (AuthController_Logout ctx w).2) = Some ok.
Proof.
  cbv zeta.
  pose proof (logout_twice_same_success
                (Sample.authenticated "s-1" "u-alice")
                (Sample.world_of Sample.store_with_sessions)
                "u-alice" "s-1" eq_refl eq_refl) as H.
  cbv zeta in H. destruct H as (H1 & H2 & H3 & _).
  split; [split; reflexivity |]. split; [by eexists |].
  split; [exact H1 |]. split; [exact H2 | exact H3].
Defined.

Lemma validate_session_ignores_audit_fields_witness :
  let ctx := Sample.authenticated "s-1" "u-alice" in
  let w1 := Sample.world_of Sample.store_with_sessions in
  let w2 := Sample.world_of Sample.store_other_client in
  tables_audit_equiv (session_tbl (db w1)) (session_tbl (db w2)) ∧
  clock w1 (ticks w1) = clock w2 (ticks w2) ∧
  session_tbl (db w1) !! "s-1" ≠ session_tbl (db w2) !! "s-1" ∧
  (AuthController_ValidateSession ctx w1).1 = (AuthController_ValidateSession ctx w2).1.
Proof.
  cbv zeta.
  assert (Ht : tables_audit_equiv
                 (session_tbl (db (Sample.world_of Sample.store_with_sessions)))
                 (session_tbl (db (Sample.world_of Sample.store_other_client))))
    by apply relabel_audit_equiv.
  split; [exact Ht |]. split; [reflexivity |].
  split; [vm_compute; discriminate |].
  exact (validate_session_ignores_audit_fields _ _ _ Ht eq_refl).
Defined.

Lemma validate_session_missing_locals_witness :
  let ctx := Sample.only_session_id in
  let w := Sample.world_of Sample.store_with_sessions in
  Locals ctx "user_id" = ANil ∧
  AuthController_ValidateSession ctx w =
    (Done (JSON StatusUnauthorized (fiber_Map "error" (AString "Invalid session"))), w).
Proof.
  cbv zeta. split; [reflexivity |].
  refine (proj1 (validate_session_missing_locals Sample.only_session_id
                   (Sample.world_of Sample.store_with_sessions) _)).
  right. intros (s & Hs & _). vm_compute in Hs. discriminate.
Defined.

(** ** Where the code departs from a claim *)

(** C4.  The claim fails where the configured TTL does not fit a
    [time.Duration]: with config.Session.Expire = 9223372037 the product
    time.Second * time.Duration(Expire) wraps around.  The login is answered
    200 all the same, and the one session it creates expires about 292 years
    before the handler's clock reading: its expires_at is 2^64 + 1
    nanoseconds short of created_at + TTL, where the two clock readings are
    one nanosecond apart. *)
Theorem login_ttl_overflow_expires_in_the_past :
  let w := Fixture.world_long_ttl in
  let run := @AuthController_Login Store (Store_AuthService Sample.crypto) _
               Sample.login_ok w in
  let resp := {| UserId_of := "u-alice"; SessionId_of := "id-x";
                 Token_of := "u-alice.id-x" |} in
  let s := login_session Sample.login_ok resp (clock w (ticks w))
             (Session_Expire (config w)) in
  Session_Expire (config w) = 9223372037 ∧
  response_of run = Some (JSON StatusOK (BodyLogin resp)) ∧
  new_calls w run =
    [CallAuthLogin {| lr_Email := "alice"; lr_Password := "wonderland" |};
     CallSessionCreate s] ∧
  ExpiresAt s = clock w (ticks w) - 9223372036709551616 ∧
  ExpiresAt s < clock w (ticks w) ∧
  session_tbl (db run.2) !! "id-x" = Some (stamp (clock w (S (ticks w))) s) ∧
  CreatedAt (stamp (clock w (S (ticks w))) s) + configured_ttl (config w)
    - ExpiresAt (stamp (clock w (S (ticks w))) s) = 2 ^ 64 + 1 ∧
  clock w (S (ticks w)) - clock w (ticks w) = 1.
Proof. cbv zeta. repeat split; reflexivity. Qed.


(** C7 as stated fails: a registration request whose body parses and whose
    email is empty is refused by AuthService.Register with InvalidInput, and
    the handler reports it as 409 "User already exists", not as 400. *)
Lemma register_empty_email_reported_as_conflict :
  let ctx := Sample.register_empty_email in
  let w := Sample.world_of Sample.store in
  let r := @AuthController_Register Store (Store_AuthService Sample.crypto) ctx w in
  rr_Email (BodyParser_RegisterRequest ctx).1 = "" ∧
  (authService_Register Sample.crypto (BodyParser_RegisterRequest ctx).1 (db w)).1.2
    = Some ErrInvalidInput ∧
  response_of r =
    Some (JSON StatusConflict (fiber_Map "error" (AString "User already exists"))) ∧
  StatusConflict ≠ StatusBadRequest.
Proof. cbv zeta. repeat split; try reflexivity. discriminate. Qed.

(** C10 as stated fails: the one user GetAllUsers returns for a table with one
    active row does not have active = true; the column is not selected and the
    field keeps its zero value. *)
Lemma get_all_users_active_field_unset :
  User_Active Sample.alice = true ∧
  (userRepository_GetAllUsers Sample.store).1 =
    [scan_user "id, name, email, avatar_url" Sample.alice] ∧
  User_Active (scan_user "id, name, email, avatar_url" Sample.alice) = false ∧
  ¬ (∀ u, u ∈ (userRepository_GetAllUsers Sample.store).1 → User_Active u = true).
Proof.
  split; [reflexivity |]. split; [reflexivity |]. split; [reflexivity |].
  intros H. specialize (H (scan_user "id, name, email, avatar_url" Sample.alice)).
  assert (Hin : scan_user "id, name, email, avatar_url" Sample.alice
                ∈ (userRepository_GetAllUsers Sample.store).1)
    by (vm_compute; apply list_elem_of_here).
  specialize (H Hin). vm_compute in H. discriminate.
Qed.

(** ** Further checks on sample inputs *)

(** Logout asserts its locals without the [ok] form: a request without them
    makes it panic, where ValidateSession answers 401. *)
Example logout_panics_without_locals :
  (AuthController_Logout Sample.only_session_id
     (Sample.world_of Sample.store_with_sessions)).1 =
  Panic "interface conversion: interface {} is nil, not string".
Proof. reflexivity. Qed.

(** Beyond 9223372036 seconds the TTL no longer fits a [time.Duration] and
    the product wraps around. *)
Example login_duration_wraps :
  Duration_mul time_Second (Duration_of_int 9223372037) = -9223372036709551616.
Proof. reflexivity. Qed.

Example upSession_refuses_mysql :
  upSession {| Session_Expire := 3600; Database_Dialect := "mysql" |} Sample.empty_store
  = (Some (ErrOther "mysql dialect is not supported yet"), Sample.empty_store).
Proof. reflexivity. Qed.

Example login_stores_the_session :
  session_tbl (db (@AuthController_Login Store (Store_AuthService Sample.crypto) _
                     Sample.login_ok (Sample.world_of Sample.store)).2) !! "id-x"
  = Some {| Id := "id-x"; UserId := "u-alice"; UserAgent := "curl/8";
            IpAddress := "10.0.0.1"; ExpiresAt := 1000 + 3600 * 1000000000;
            CreatedAt := 1001; UpdatedAt := 1001 |}.
Proof. reflexivity. Qed.

Example get_by_id_drops_the_hash :
  userRepository_GetById "u-alice" Sample.store =
  ({| User_Id := "u-alice"; User_Name := "Alice"; User_Username := "";
      User_Email := "alice@example.org"; User_Password := "";
      User_AvatarUrl := "/a.png"; User_Active := false; User_Preferences := "";
      User_Groups := []; User_CreatedAt := 5; User_UpdatedAt := 6 |}, None).
Proof. reflexivity. Qed.

(** * Further properties of the code *)

(** ** The handlers, for any implementation of the services *)

Section MoreControllerFacts.
Context {D : Type} `{!AuthService D} `{!SessionService D}.

(** X1.  Login always returns (it never panics), and its status tells the
    first step that failed: 400 exactly when the body does not parse, 401
    exactly when AuthService.Login returns an error, 500 exactly when
    SessionService.Create returns one, 200 exactly when all three succeed.
    The response carries a token exactly when the status is 200. *)
Theorem login_status_by_first_failure (ctx : Ctx) (w : World D) :
  let parsed := BodyParser_LoginRequest ctx in
  let auth := Login parsed.1 (db w) in
  let created :=
    Create (login_session ctx auth.1.1 (clock w (ticks w)) (Session_Expire (config w)))
           (clock w (S (ticks w))) auth.2 in
  ∃ r w', AuthController_Login ctx w = (Done r, w') ∧
    (status r = StatusBadRequest ↔ parsed.2 ≠ None) ∧
    (status r = StatusUnauthorized ↔ parsed.2 = None ∧ auth.1.2 ≠ None) ∧
    (status r = StatusInternalServerError ↔
       parsed.2 = None ∧ auth.1.2 = None ∧ created.1 ≠ None) ∧
    (status r = StatusOK ↔ parsed.2 = None ∧ auth.1.2 = None ∧ created.1 = None) ∧
    (issued_token r ≠ None ↔ status r = StatusOK).
Proof.
  cbv zeta. unfold AuthController_Login.
  destruct (BodyParser_LoginRequest ctx) as [req [perr|]]; cbn [fst snd].
  { eexists _, _. split; [reflexivity |]. cbn.
    unfold StatusBadRequest, StatusUnauthorized, StatusInternalServerError, StatusOK.
    intuition congruence. }
  unfold_M. destruct (Login req (db w)) as [[resp [e|]] d1]; cbn [fst snd].
  { eexists _, _. split; [reflexivity |]. cbn.
    unfold StatusBadRequest, StatusUnauthorized, StatusInternalServerError, StatusOK.
    intuition congruence. }
  cbn -[Create Duration_mul Duration_of_int].
  fold (login_session ctx resp (clock w (ticks w)) (Session_Expire (config w))).
  destruct (Create _ _ d1) as [[e|] d2]; cbn.
  - eexists _, _. split; [reflexivity |]. cbn.
    unfold StatusBadRequest, StatusUnauthorized, StatusInternalServerError, StatusOK.
    intuition congruence.
  - eexists _, _. split; [reflexivity |]. cbn.
    unfold StatusBadRequest, StatusUnauthorized, StatusInternalServerError, StatusOK.
    intuition congruence.
Qed.

(** X2.  Login calls nothing when the body does not parse, AuthService.Login
    alone when that call fails, and otherwise AuthService.Login followed by
    one SessionService.Create; it makes no other service call, and the clock
    is read only on the way to that Create. *)
Theorem login_call_discipline (ctx : Ctx) (w : World D) :
  let parsed := BodyParser_LoginRequest ctx in
  let auth := Login parsed.1 (db w) in
  let run := AuthController_Login ctx w in
  match parsed.2, auth.1.2 with
  | Some _, _ => run.2 = w
  | None, Some _ =>
      new_calls w run = [CallAuthLogin parsed.1] ∧ ticks run.2 = ticks w
  | None, None =>
      new_calls w run =
        [CallAuthLogin parsed.1;
         CallSessionCreate
           (login_session ctx auth.1.1 (clock w (ticks w)) (Session_Expire (config w)))] ∧
      ticks run.2 = S (S (ticks w))
  end.
Proof.
  cbv zeta. unfold AuthController_Login.
  destruct (BodyParser_LoginRequest ctx) as [req [perr|]]; cbn [fst snd]; [reflexivity |].
  unfold_M. destruct (Login req (db w)) as [[resp [e|]] d1]; cbn [fst snd].
  - split; [| reflexivity]. unfold new_calls. cbn. by rewrite drop_app_length.
  - cbn -[Create Duration_mul Duration_of_int].
    fold (login_session ctx resp (clock w (ticks w)) (Session_Expire (config w))).
    destruct (Create _ _ d1) as [[e|] d2]; cbn;
      (split; [| reflexivity]); unfold new_calls; cbn;
      rewrite <- app_assoc; by rewrite drop_app_length.
Qed.

(** X3.  A login answered 200 hands the caller exactly the response of
    AuthService.Login, and the session it created is bound to that response
    and to the request: its id and user id are the response's, its user agent
    is the User-Agent header (empty when there is none), its address the
    client's, and its created_at and updated_at are left to the store. *)
Theorem login_success_binds_session (ctx : Ctx) (w : World D) (r : Response) :
  response_of (AuthController_Login ctx w) = Some r →
  status r = StatusOK →
  let auth := Login (BodyParser_LoginRequest ctx).1 (db w) in
  ∃ s,
    body r = BodyLogin auth.1.1 ∧
    last (new_calls w (AuthController_Login ctx w)) = Some (CallSessionCreate s) ∧
    Id s = SessionId_of auth.1.1 ∧ UserId s = UserId_of auth.1.1 ∧
    UserAgent s = default "" (headers ctx !! "User-Agent") ∧ IpAddress s = IP ctx ∧
    CreatedAt s = zero_Time ∧ UpdatedAt s = zero_Time ∧
    db (AuthController_Login ctx w).2 = (Create s (clock w (S (ticks w))) auth.2).2.
Proof.
  intros Hr Hok. cbv zeta. revert Hr. unfold AuthController_Login.
  destruct (BodyParser_LoginRequest ctx) as [req [perr|]]; cbn [fst snd];
    [intros [= <-]; vm_compute in Hok; discriminate |].
  unfold_M. destruct (Login req (db w)) as [[resp [e|]] d1]; cbn [fst snd];
    [intros [= <-]; vm_compute in Hok; discriminate |].
  cbn -[Create Duration_mul Duration_of_int].
  fold (login_session ctx resp (clock w (ticks w)) (Session_Expire (config w))).
  destruct (Create _ _ d1) as [[e|] d2] eqn:Hcreate; cbn;
    [intros [= <-]; vm_compute in Hok; discriminate |].
  intros [= <-].
  exists (login_session ctx resp (clock w (ticks w)) (Session_Expire (config w))).
  split; [reflexivity |]. split.
  { unfold new_calls. cbn. rewrite <- app_assoc. by rewrite drop_app_length. }
  rewrite Hcreate. by repeat split.
Qed.
Lemma string_local_dec (ctx : Ctx) (key : string) :
  string_local ctx key ∨ ¬ string_local ctx key.
Proof.
  unfold string_local. destruct (Locals ctx key) as [|s|b|z];
    [right | left; by exists s | right | right]; intros (s' & ?); done.
Qed.

(** Logout once both locals are strings: one Delete of the session id. *)
Lemma logout_run (ctx : Ctx) (w : World D) (uid sid : string) :
  Locals ctx "user_id" = AString uid →
  Locals ctx "session_id" = AString sid →
  AuthController_Logout ctx w =
    let deleted := Delete sid (db w) in
    (Done (match deleted.1 with
           | Some _ => JSON StatusInternalServerError
                         (fiber_Map "error" (AString "Internal server error"))
           | None => JSON StatusOK
                       (fiber_Map "message" (AString "Logged out successfully"))
           end),
     set_db deleted.2 (log_call (CallSessionDelete sid) w)).
Proof.
  intros Hu Hs. unfold AuthController_Logout. rewrite Hu, Hs. unfold_M.
  destruct (Delete sid (db w)) as [[e|] d1]; reflexivity.
Qed.

(** X4.  Logout panics exactly when user_id or session_id is not attached as
    a string; the panic comes before any service call, so the world is left
    as it was. *)
Theorem logout_panics_iff_local_not_string (ctx : Ctx) (w : World D) :
  ((∃ msg, (AuthController_Logout ctx w).1 = Panic msg) ↔
     ¬ (string_local ctx "user_id" ∧ string_local ctx "session_id")) ∧
  (∀ msg, (AuthController_Logout ctx w).1 = Panic msg →
     (AuthController_Logout ctx w).2 = w).
Proof.
  destruct (string_local_dec ctx "user_id") as [[uid Hu] | Hu].
  - destruct (string_local_dec ctx "session_id") as [[sid Hs] | Hs].
    + rewrite (logout_run ctx w uid sid Hu Hs). cbn. split.
      * split; [intros [msg ?]; done |].
        intros Hn. destruct Hn. split; [by exists uid | by exists sid].
      * intros msg ?. done.
    + unfold AuthController_Logout. rewrite Hu. unfold_M.
      destruct (Locals ctx "session_id") as [|s|b|z] eqn:Hl;
        try (split; [split; [intros _; tauto | intros _; by eexists] | by intros]).
      destruct Hs. by exists s.
  - unfold AuthController_Logout. unfold_M.
    destruct (Locals ctx "user_id") as [|s|b|z] eqn:Hl;
      try (split; [split; [intros _; tauto | intros _; by eexists] | by intros]).
    destruct Hu. by exists s.
Qed.

(** X5.  When both locals are strings, empty or not, Logout makes exactly one
    service call, Delete of the session id, and answers 200 "Logged out
    successfully" exactly when that call returns no error and 500 otherwise. *)
Theorem logout_status_by_delete (ctx : Ctx) (w : World D) (uid sid : string) :
  Locals ctx "user_id" = AString uid →
  Locals ctx "session_id" = AString sid →
  let run := AuthController_Logout ctx w in
  ∃ r, run.1 = Done r ∧
    (status r = StatusOK ↔ (Delete sid (db w)).1 = None) ∧
    (status r = StatusInternalServerError ↔ (Delete sid (db w)).1 ≠ None) ∧
    new_calls w run = [CallSessionDelete sid] ∧
    db run.2 = (Delete sid (db w)).2.
Proof.
  intros Hu Hs. cbv zeta. rewrite (logout_run ctx w uid sid Hu Hs). cbn zeta.
  destruct (Delete sid (db w)) as [[e|] d1]; cbn.
  - eexists. split; [reflexivity |]. cbn.
    unfold StatusOK, StatusInternalServerError.
    split; [intuition congruence |]. split; [intuition congruence |].
    split; [| reflexivity]. unfold new_calls. cbn. by rewrite drop_app_length.
  - eexists. split; [reflexivity |]. cbn.
    unfold StatusOK, StatusInternalServerError.
    split; [intuition congruence |]. split; [intuition congruence |].
    split; [| reflexivity]. unfold new_calls. cbn. by rewrite drop_app_length.
Qed.

(** X6.  Logout does not check whose session it deletes: two requests with the
    same session_id local and any two string user_id locals, whatever else
    they carry, have the same outcome and leave the same world. *)
Theorem logout_ignores_user_id (ctx1 ctx2 : Ctx) (w : World D) (uid1 uid2 sid : string) :
  Locals ctx1 "user_id" = AString uid1 →
  Locals ctx2 "user_id" = AString uid2 →
  Locals ctx1 "session_id" = AString sid →
  Locals ctx2 "session_id" = AString sid →
  AuthController_Logout ctx1 w = AuthController_Logout ctx2 w.
Proof.
  intros Hu1 Hu2 Hs1 Hs2.
  by rewrite (logout_run ctx1 w uid1 sid Hu1 Hs1), (logout_run ctx2 w uid2 sid Hu2 Hs2).
Qed.

(** X7.  ValidateSession always returns (it never panics) with 200, 401 or
    404.  It makes no service call at all, or the single call GetById of the
    attached session id: it never creates, extends or deletes a session, and
    the store it leaves is the one GetById returned. *)
Theorem validate_session_only_reads (ctx : Ctx) (w : World D) :
  let run := AuthController_ValidateSession ctx w in
  ∃ r, run.1 = Done r ∧
    (status r = StatusOK ∨ status r = StatusUnauthorized ∨ status r = StatusNotFound) ∧
    (run.2 = w ∨
     ∃ sid, Locals ctx "session_id" = AString sid ∧
       new_calls w run = [CallSessionGetById sid] ∧
       db run.2 = (GetById sid (db w)).2).
Proof.
  cbv zeta.
  destruct (attached_dec ctx "session_id") as [(sid & Hsid & Hsne) | Hs];
    [| rewrite validate_session_guard by (by left); eexists;
       split; [reflexivity |]; split; [right; left; reflexivity | by left]].
  destruct (attached_dec ctx "user_id") as [(uid & Huid & Hune) | Hu];
    [| rewrite validate_session_guard by (by right); eexists;
       split; [reflexivity |]; split; [right; left; reflexivity | by left]].
  rewrite (validate_session_run ctx w sid uid) by done. cbn zeta.
  destruct (GetById sid (db w)) as [[s err] d1] eqn:Hget. cbn [fst snd].
  assert (Hread : ∀ (r : Response) (n : nat),
            status r = StatusOK ∨ status r = StatusUnauthorized ∨ status r = StatusNotFound →
            let run := (Done r, {| db := d1; clock := clock w; ticks := n;
                                   config := config w;
                                   calls := calls w ++ [CallSessionGetById sid] |}) in
            ∃ r', run.1 = Done r' ∧
              (status r' = StatusOK ∨ status r' = StatusUnauthorized
               ∨ status r' = StatusNotFound) ∧
              (run.2 = w ∨
               ∃ sid', Locals ctx "session_id" = AString sid' ∧
                 new_calls w run = [CallSessionGetById sid'] ∧
                 db run.2 = (GetById sid' (db w)).2)).
  { intros r n Hr run. exists r. split; [reflexivity |]. split; [exact Hr |].
    right. exists sid. split; [exact Hsid |]. rewrite Hget. split; [| reflexivity].
    unfold new_calls. cbn. by rewrite drop_app_length. }
  destruct err as [e|]; [apply Hread; right; right; reflexivity |].
  destruct (bool_decide (UserId s ≠ uid)); [apply Hread; right; left; reflexivity |].
  destruct (ExpiresAt s <=? clock w (ticks w));
    apply Hread; [right; left; reflexivity | left; reflexivity].
Qed.

(** X8.  ValidateSession looks at nothing of the request but the two locals:
    two requests that agree on session_id and user_id have the same outcome
    and leave the same world, whatever their headers, client address or
    body. *)
Theorem validate_session_ignores_client (ctx1 ctx2 : Ctx) (w : World D) :
  Locals ctx1 "session_id" = Locals ctx2 "session_id" →
  Locals ctx1 "user_id" = Locals ctx2 "user_id" →
  AuthController_ValidateSession ctx1 w = AuthController_ValidateSession ctx2 w.
Proof.
  intros Hs Hu. unfold AuthController_ValidateSession. by rewrite Hs, Hu.
Qed.

(** X9.  Register does not log the new user in.  Its response is one of
    three fixed ones, 400 "Invalid request", 409 "User already exists" or 201
    "User registered successfully", and none of them carries a token.  It
    makes no service call when the body does not parse and the single call
    AuthService.Register when it does, so never a SessionService call, and it
    does not read the clock. *)
Theorem register_does_not_log_in (ctx : Ctx) (w : World D) :
  let run := AuthController_Register ctx w in
  let parsed := BodyParser_RegisterRequest ctx in
  (response_of run =
     Some (JSON StatusBadRequest (fiber_Map "error" (AString "Invalid request"))) ∨
   response_of run =
     Some (JSON StatusConflict (fiber_Map "error" (AString "User already exists"))) ∨
   response_of run =
     Some (JSON StatusCreated
             (fiber_Map "message" (AString "User registered successfully")))) ∧
  response_of run ≫= issued_token = None ∧
  (parsed.2 ≠ None → run.2 = w) ∧
  (parsed.2 = None → new_calls w run = [CallAuthRegister parsed.1]) ∧
  ticks run.2 = ticks w.
Proof.
  cbv zeta. unfold AuthController_Register.
  destruct (BodyParser_RegisterRequest ctx) as [req [perr|]]; cbn [fst snd].
  { split; [by left |]. split; [reflexivity |].
    split; [reflexivity |]. split; [done | reflexivity]. }
  unfold_M. destruct (Register req (db w)) as [[res [e|]] d1]; cbn [fst snd].
  - split; [right; by left |]. split; [reflexivity |].
    split; [done |]. split; [| reflexivity].
    intros _. unfold new_calls. cbn. by rewrite drop_app_length.
  - split; [right; by right |]. split; [reflexivity |].
    split; [done |]. split; [| reflexivity].
    intros _. unfold new_calls. cbn. by rewrite drop_app_length.
Qed.
End MoreControllerFacts.

(** ** The session migration *)

(** X10.  For every configured dialect other than exactly "sqlite" and
    "postgres", upSession returns an error and executes nothing: the database
    is left as it was.  The error names mysql as not supported yet and any
    other dialect as unsupported. *)
Theorem upSession_unsupported_dialect (cfg : Config) (tx : Store) :
  Database_Dialect cfg ≠ "sqlite" →
  Database_Dialect cfg ≠ "postgres" →
  upSession cfg tx =
    (Some (ErrOther (if bool_decide (Database_Dialect cfg = "mysql")
                     then "mysql dialect is not supported yet"
                     else "unsupported dialect: " ++ Database_Dialect cfg)),
     tx).
Proof.
  intros Hlite Hpg. unfold upSession, upSession_query.
  rewrite !bool_decide_eq_false_2 by done.
  by destruct (bool_decide (Database_Dialect cfg = "mysql")).
Qed.

(** ** The user repository, further *)

Lemma find_filter_implied {A} (P Q : A → bool) (l : list A) :
  (∀ x, P x = true → Q x = true) →
  List.find P (List.filter Q l) = List.find P l.
Proof.
  intros HPQ. induction l as [|x l IH]; [reflexivity |]. cbn.
  destruct (Q x) eqn:HQ; cbn.
  - destruct (P x); [reflexivity | exact IH].
  - destruct (P x) eqn:HP; [| exact IH]. apply HPQ in HP. congruence.
Qed.

Lemma find_none_iff {A} (P : A → bool) (l : list A) :
  List.find P l = None ↔ ∀ x, x ∈ l → P x = false.
Proof.
  split.
  - intros Hnone x Hin. apply (find_none P l Hnone). by apply list_elem_of_In.
  - intros Hall. induction l as [|x l IH]; [reflexivity |]. cbn.
    rewrite (Hall x) by apply list_elem_of_here.
    apply IH. intros y Hy. apply Hall. by apply list_elem_of_further.
Qed.

Lemma GetById_miss_without_row (id : string) (d : Store) :
  user_exists id d = false →
  userRepository_GetById id d = (zero_User, Some ErrRecordNotFound).
Proof.
  intros Hnone. unfold userRepository_GetById, gorm_First.
  destruct (List.find _ (user_tbl d)) as [row|] eqn:Hfind; [| reflexivity].
  apply find_some in Hfind as [Hin Hid]. apply bool_decide_eq_true in Hid.
  assert (user_exists id d = true) as Hex; [| congruence].
  apply user_exists_spec. exists row. split; [by apply list_elem_of_In | done].
Qed.

(** X11.  GetById finds a user exactly when the table has a row with that id.
    A hit carries the id asked for; a miss is reported as ErrRecordNotFound
    together with the zero User. *)
Theorem GetById_found_iff_row (id : string) (d : Store) :
  let got := userRepository_GetById id d in
  (got.2 = None ↔ user_exists id d = true) ∧
  (got.2 = None → User_Id got.1 = id) ∧
  (got.2 ≠ None → got = (zero_User, Some ErrRecordNotFound)).
Proof.
  cbv zeta. unfold userRepository_GetById, gorm_First.
  destruct (List.find _ (user_tbl d)) as [row|] eqn:Hfind; cbn [fst snd].
  - apply find_some in Hfind as [Hin Hid]. apply bool_decide_eq_true in Hid.
    split; [| split; [by rewrite scan_user_GetById | done]].
    split; [intros _ | done]. apply user_exists_spec. exists row.
    split; [by apply list_elem_of_In | done].
  - split; [| split; [done | done]].
    split; [done |]. intros Hex. apply user_exists_spec in Hex as (u & Hin & Hid).
    apply list_elem_of_In in Hin. apply (find_none _ _ Hfind) in Hin.
    apply bool_decide_eq_false in Hin. done.
Qed.

(** X12.  After Delete no row has the id and GetById misses; the rows of
    every other id stay, in their order, and are looked up as before; deleting
    an id that has no row leaves the user table as it was, so deleting twice
    is deleting once. *)
Theorem user_Delete_removes_only_that_id (id : string) (d : Store) :
  let d' := (userRepository_Delete id d).2 in
  user_exists id d' = false ∧
  userRepository_GetById id d' = (zero_User, Some ErrRecordNotFound) ∧
  (∀ row, row ∈ user_tbl d' ↔ row ∈ user_tbl d ∧ User_Id row ≠ id) ∧
  (∀ id', id' ≠ id → userRepository_GetById id' d' = userRepository_GetById id' d) ∧
  (user_exists id d = false → user_tbl d' = user_tbl d) ∧
  user_tbl (userRepository_Delete id d').2 = user_tbl d'.
Proof.
  cbv zeta.
  assert (Htbl : ∀ d0, user_tbl (userRepository_Delete id d0).2
                 = List.filter (λ u, negb (bool_decide (User_Id u = id))) (user_tbl d0))
    by (intros d0; apply (userRepository_Delete_tables id d0)).
  assert (Hgone : user_exists id (userRepository_Delete id d).2 = false).
  { apply not_true_is_false. intros Hex.
    apply user_exists_spec in Hex as (u & Hin & Hid). rewrite Htbl in Hin.
    apply list_elem_of_In, filter_In in Hin as [_ Hne].
    apply negb_true_iff, bool_decide_eq_false in Hne. done. }
  split; [exact Hgone |]. split; [| split; [| split; [| split]]].
  - apply GetById_miss_without_row. exact Hgone.
  - intros row. rewrite Htbl, !list_elem_of_In, filter_In.
    rewrite negb_true_iff, bool_decide_eq_false. reflexivity.
  - intros id' Hne. unfold userRepository_GetById, gorm_First. rewrite Htbl.
    rewrite find_filter_implied; [reflexivity |].
    intros u Hu. apply bool_decide_eq_true in Hu.
    apply negb_true_iff, bool_decide_eq_false. congruence.
  - intros Hnone. rewrite Htbl.
    apply forallb_filter_id, forallb_forall. intros u Hin.
    apply negb_true_iff, bool_decide_eq_false. intros Hid.
    assert (user_exists id d = true) as Hex; [| congruence].
    apply user_exists_spec. exists u. split; [by apply list_elem_of_In | done].
  - rewrite !Htbl.
    apply forallb_filter_id, forallb_forall. intros u Hin.
    by apply filter_In in Hin as [_ Hne].
Qed.

Lemma filter_active_split (l : list User) :
  (length (List.filter (λ u, bool_decide (User_Active u = true)) l)
   + length (List.filter (λ u, bool_decide (User_Active u = false)) l))%nat
  = length l.
Proof.
  induction l as [|u l IH]; [reflexivity |]. cbn [List.filter].
  destruct (User_Active u).
  - rewrite bool_decide_eq_true_2, bool_decide_eq_false_2 by done. cbn. lia.
  - rewrite bool_decide_eq_false_2, bool_decide_eq_true_2 by done. cbn. lia.
Qed.

(** X13.  GetAllUsers and GetAllInactiveUsers split the table between them:
    each row is read by exactly one of the two, the active rows by the first
    and the inactive rows by the second, so the two results together are as
    long as the table; what GetAllInactiveUsers returns is read from inactive
    rows and carries no password hash either. *)
Theorem active_and_inactive_users_split_the_table (d : Store) :
  let active := (userRepository_GetAllUsers d).1 in
  let inactive := (userRepository_GetAllInactiveUsers d).1 in
  (length active + length inactive)%nat = length (user_tbl d) ∧
  (∀ row, row ∈ user_tbl d →
     if User_Active row
     then scan_user "id, name, email, avatar_url" row ∈ active
     else scan_user "id, name, email, avatar_url" row ∈ inactive) ∧
  (∀ v, v ∈ active →
     ∃ row, row ∈ user_tbl d ∧ User_Active row = true ∧
       v = scan_user "id, name, email, avatar_url" row) ∧
  (∀ v, v ∈ inactive →
     User_Password v = "" ∧
     ∃ row, row ∈ user_tbl d ∧ User_Active row = false ∧
       v = scan_user "id, name, email, avatar_url" row).
Proof.
  cbv zeta. unfold userRepository_GetAllUsers, userRepository_GetAllInactiveUsers, gorm_Find.
  cbn [fst snd].
  split; [| split; [| split]].
  - rewrite !length_map. apply filter_active_split.
  - intros row Hin. apply list_elem_of_In in Hin.
    destruct (User_Active row) eqn:Hact;
      apply list_elem_of_In, in_map, filter_In; (split; [exact Hin |]);
      by apply bool_decide_eq_true.
  - intros v Hv. apply list_elem_of_In, in_map_iff in Hv as (row & <- & Hin).
    apply filter_In in Hin as [Hin Hact]. apply bool_decide_eq_true in Hact.
    exists row. by split; [apply list_elem_of_In |].
  - intros v Hv. apply list_elem_of_In, in_map_iff in Hv as (row & <- & Hin).
    apply filter_In in Hin as [Hin Hact]. apply bool_decide_eq_true in Hact.
    rewrite scan_user_GetAllUsers. split; [reflexivity |].
    exists row. by split; [apply list_elem_of_In |].
Qed.

(** X14.  GetByEmailOrUsername finds a user exactly when some row has the
    identifier as its email or as its username, and then returns a row that
    matches with every column read, the password hash included (Groups are
    not loaded); a miss is ErrRecordNotFound with the zero User. *)
Theorem GetByEmailOrUsername_matches_either (x : string) (d : Store) :
  let got := userRepository_GetByEmailOrUsername x d in
  match got.2 with
  | None =>
      ∃ row, row ∈ user_tbl d ∧ (User_Email row = x ∨ User_Username row = x) ∧
        got.1 = scan_user_all row ∧ User_Password got.1 = User_Password row ∧
        User_Groups got.1 = []
  | Some err =>
      err = ErrRecordNotFound ∧ got.1 = zero_User ∧
      ∀ row, row ∈ user_tbl d → User_Email row ≠ x ∧ User_Username row ≠ x
  end.
Proof.
  cbv zeta. unfold userRepository_GetByEmailOrUsername, gorm_First.
  destruct (List.find _ (user_tbl d)) as [row|] eqn:Hfind; cbn [fst snd].
  - apply find_some in Hfind as [Hin Hm]. exists row.
    split; [by apply list_elem_of_In |]. split; [| done].
    apply orb_true_iff in Hm as [Hm | Hm]; apply bool_decide_eq_true in Hm; auto.
  - split; [reflexivity |]. split; [reflexivity |].
    intros row Hin. apply list_elem_of_In in Hin.
    apply (find_none _ _ Hfind) in Hin.
    apply orb_false_iff in Hin as [He Hu].
    by apply bool_decide_eq_false in He, Hu.
Qed.

(** X15.  GetByEmail finds a user exactly when some row has that email, and
    then returns such a row; on a miss it returns the zero User with
    ErrRecordNotFound.  Whatever email it finds, GetByEmailOrUsername finds
    a user for the same string too. *)
Theorem GetByEmail_matches_email (email : string) (d : Store) :
  let got := userRepository_GetByEmail email d in
  match got.2 with
  | None =>
      (∃ row, row ∈ user_tbl d ∧ User_Email row = email ∧ got.1 = scan_user_all row) ∧
      (userRepository_GetByEmailOrUsername email d).2 = None
  | Some err =>
      err = ErrRecordNotFound ∧ got.1 = zero_User ∧
      ∀ row, row ∈ user_tbl d → User_Email row ≠ email
  end.
Proof.
  cbv zeta. unfold userRepository_GetByEmail, userRepository_GetByEmailOrUsername, gorm_First.
  destruct (List.find (λ u, bool_decide (User_Email u = email)) (user_tbl d))
    as [row|] eqn:Hfind; cbn [fst snd].
  - apply find_some in Hfind as [Hin Hm]. apply bool_decide_eq_true in Hm.
    split; [exists row; by split; [apply list_elem_of_In |] |].
    destruct (List.find _ (user_tbl d)) as [row'|] eqn:Hfind'; [reflexivity |].
    apply (find_none _ _ Hfind') in Hin.
    apply orb_false_iff in Hin as [He _]. by apply bool_decide_eq_false in He.
  - split; [reflexivity |]. split; [reflexivity |].
    intros row Hin. apply list_elem_of_In in Hin.
    apply (find_none _ _ Hfind) in Hin. by apply bool_decide_eq_false in Hin.
Qed.

Lemma find_map_stable {A} (P : A → bool) (f : A → A) (l : list A) :
  (∀ x, P (f x) = P x) →
  List.find P (List.map f l) = f <$> List.find P l.
Proof.
  intros HP. induction l as [|x l IH]; [reflexivity |]. cbn.
  rewrite HP. destruct (P x); [reflexivity | exact IH].
Qed.

Lemma map_untouched {A} (g : A → bool) (f : A → A) (l : list A) :
  (∀ x, x ∈ l → g x = false) →
  List.map (λ x, if g x then f x else x) l = l.
Proof.
  induction l as [|x l IH]; [reflexivity |]. intros Hall. cbn.
  rewrite (Hall x) by apply list_elem_of_here. f_equal.
  apply IH. intros y Hy. apply Hall. by apply list_elem_of_further.
Qed.

Lemma GetPreferencesById_find (id : string) (d : Store) :
  userRepository_GetPreferencesById id d =
  match List.find (λ u, bool_decide (User_Id u = id)) (user_tbl d) with
  | Some row => (User_Preferences row, None)
  | None => (empty_JSONB, Some ErrRecordNotFound)
  end.
Proof.
  unfold userRepository_GetPreferencesById, gorm_First.
  destruct (List.find _ (user_tbl d)); reflexivity.
Qed.

Lemma UpdatePreferences_find (id id' : string) (v : JSONB) (now : Time) (d : Store) :
  List.find (λ u, bool_decide (User_Id u = id'))
    (user_tbl (userRepository_UpdatePreferences id v now d).2) =
  (λ u, if bool_decide (User_Id u = id) then set_preferences v now u else u)
    <$> List.find (λ u, bool_decide (User_Id u = id')) (user_tbl d).
Proof.
  unfold userRepository_UpdatePreferences. cbn.
  apply find_map_stable. intros u. by destruct (bool_decide (User_Id u = id)).
Qed.

(** X16.  Round trip of the preferences: once UpdatePreferences has stored a
    value for a user that has a row, GetPreferencesById returns that value
    for that user, and the preferences of every other id read as before. *)
Theorem preferences_round_trip (id : string) (v : JSONB) (now : Time) (d : Store) :
  user_exists id d = true →
  let d' := (userRepository_UpdatePreferences id v now d).2 in
  (userRepository_UpdatePreferences id v now d).1 = None ∧
  userRepository_GetPreferencesById id d' = (v, None) ∧
  (∀ id', id' ≠ id →
     userRepository_GetPreferencesById id' d' = userRepository_GetPreferencesById id' d).
Proof.
  intros Hex. cbv zeta. split; [reflexivity |]. split.
  - rewrite GetPreferencesById_find, UpdatePreferences_find.
    destruct (List.find _ (user_tbl d)) as [row|] eqn:Hfind.
    + apply find_some in Hfind as [_ Hid]. cbn. by rewrite Hid.
    + apply user_exists_spec in Hex as (u & Hin & Hid).
      apply list_elem_of_In in Hin. apply (find_none _ _ Hfind) in Hin.
      apply bool_decide_eq_false in Hin. done.
  - intros id' Hne. rewrite !GetPreferencesById_find, UpdatePreferences_find.
    destruct (List.find _ (user_tbl d)) as [row|] eqn:Hfind; [| reflexivity].
    apply find_some in Hfind as [_ Hid]. apply bool_decide_eq_true in Hid. cbn.
    rewrite bool_decide_eq_false_2 by congruence. reflexivity.
Qed.

(** X17.  UpdatePreferences for an id that has no row reports success all the
    same and changes nothing: the store is left as it was, and
    GetPreferencesById still misses, with the empty blob and
    ErrRecordNotFound. *)
Theorem UpdatePreferences_unknown_user_is_silent (id : string) (v : JSONB) (now : Time)
    (d : Store) :
  user_exists id d = false →
  userRepository_UpdatePreferences id v now d = (None, d) ∧
  userRepository_GetPreferencesById id d = (empty_JSONB, Some ErrRecordNotFound).
Proof.
  intros Hnone.
  assert (Hall : ∀ u, u ∈ user_tbl d → bool_decide (User_Id u = id) = false).
  { intros u Hin. apply bool_decide_eq_false. intros Hid.
    assert (user_exists id d = true) as Hex; [| congruence].
    apply user_exists_spec. by exists u. }
  split.
  - unfold userRepository_UpdatePreferences.
    rewrite map_untouched by exact Hall. by destruct d.
  - rewrite GetPreferencesById_find.
    by rewrite (proj2 (find_none_iff _ _) Hall).
Qed.

(** X18.  UpdatePreferences writes the preferences and updated_at columns of
    the user's rows and nothing else: what GetById reads for the user keeps
    its id, name, email, avatar_url and created_at and gets the clock reading
    as updated_at; the lookup by email or username still returns the same
    password hash; and the session table is untouched. *)
Theorem UpdatePreferences_keeps_other_columns (id : string) (v : JSONB) (now : Time)
    (d : Store) :
  user_exists id d = true →
  let d' := (userRepository_UpdatePreferences id v now d).2 in
  let before := (userRepository_GetById id d).1 in
  let after := (userRepository_GetById id d').1 in
  (userRepository_GetById id d').2 = None ∧
  User_Id after = User_Id before ∧ User_Name after = User_Name before ∧
  User_Email after = User_Email before ∧ User_AvatarUrl after = User_AvatarUrl before ∧
  User_CreatedAt after = User_CreatedAt before ∧ User_UpdatedAt after = now ∧
  (∀ x, User_Password (userRepository_GetByEmailOrUsername x d').1
        = User_Password (userRepository_GetByEmailOrUsername x d).1) ∧
  session_tbl d' = session_tbl d.
Proof.
  intros Hex. cbv zeta.
  unfold userRepository_GetById, userRepository_GetByEmailOrUsername, gorm_First.
  rewrite UpdatePreferences_find.
  destruct (List.find (λ u, bool_decide (User_Id u = id)) (user_tbl d)) as [row|] eqn:Hfind.
  - apply find_some in Hfind as [_ Hid]. cbn [fmap option_fmap option_map].
    rewrite Hid. rewrite !scan_user_GetById. cbn.
    repeat (split; [reflexivity |]). split; [| reflexivity].
    intros x. unfold userRepository_UpdatePreferences. cbn [snd user_tbl set_user_tbl].
    rewrite find_map_stable
      by (intros u; by destruct (bool_decide (User_Id u = id))).
    destruct (List.find _ (user_tbl d)) as [row'|]; [| reflexivity]. cbn.
    by destruct (bool_decide (User_Id row' = id)).
  - apply user_exists_spec in Hex as (u & Hin & Hid).
    apply list_elem_of_In in Hin. apply (find_none _ _ Hfind) in Hin.
    apply bool_decide_eq_false in Hin. done.
Qed.

(** ** The migration command, properties *)

(** X19.  runMigration succeeds exactly when the DSN is not empty and the
    migrations run without error.  With an empty DSN it fails before the
    database is opened or any migration is run; otherwise it opens the
    database once, with the configured dialect and DSN, runs the migrations
    once and returns their error as it is. *)
Theorem runMigration_needs_dsn {Handle : Type} (NewGorm : string → string → Handle)
    (RunMigration : Handle → option error) (cfg : Config) (dsn : string) :
  let run := runMigration NewGorm RunMigration cfg dsn in
  (run.1 = None ↔ dsn ≠ "" ∧ RunMigration (NewGorm (Database_Dialect cfg) dsn) = None) ∧
  (dsn = "" →
     run = (Some (ErrOther "database gorm dsn is required"), [CallNewLogger])) ∧
  (dsn ≠ "" →
     run = (RunMigration (NewGorm (Database_Dialect cfg) dsn),
            [CallNewLogger; CallNewGorm (Database_Dialect cfg) dsn; CallRunMigration])).
Proof.
  cbv zeta. unfold runMigration. case_bool_decide as Hdsn.
  - split; [split; [done | intros [? _]; done] |]. split; [done | done].
  - destruct (RunMigration _) as [e|] eqn:Hrun; cbn.
    + split; [split; [done | intros [_ ?]; done] |]. split; [done | done].
    + split; [split; [done | done] |]. split; [done | done].
Qed.

(** ** The further statements at sample inputs *)

Lemma login_success_binds_session_witness :
  let ctx := Sample.login_ok in
  let w := Sample.world_of Sample.store in
  let run := @AuthController_Login Store (Store_AuthService Sample.crypto) _ ctx w in
  let resp := {| UserId_of := "u-alice"; SessionId_of := "id-x";
                 Token_of := "u-alice.id-x" |} in
  response_of run = Some (JSON StatusOK (BodyLogin resp)) ∧
  ∃ s, last (new_calls w run) = Some (CallSessionCreate s) ∧
    Id s = "id-x" ∧ UserId s = "u-alice" ∧ UserAgent s = "curl/8" ∧
    IpAddress s = "10.0.0.1".
Proof.
  cbv zeta.
  assert (Hr : response_of
                 (@AuthController_Login Store (Store_AuthService Sample.crypto) _
                    Sample.login_ok (Sample.world_of Sample.store))
               = Some (JSON StatusOK
                         (BodyLogin {| UserId_of := "u-alice"; SessionId_of := "id-x";
                                       Token_of := "u-alice.id-x" |})))
    by (vm_compute; reflexivity).
  split; [exact Hr |].
  destruct (@login_success_binds_session Store (Store_AuthService Sample.crypto) _
              Sample.login_ok (Sample.world_of Sample.store) _ Hr eq_refl)
    as (s & _ & Hc & Hi & Hu & Ha & Hp & _).
  exists s. split; [exact Hc |]. split; [exact Hi |]. split; [exact Hu |].
  split; [exact Ha | exact Hp].
Defined.

Lemma logout_status_by_delete_witness :
  let ctx := Sample.authenticated "s-1" "u-alice" in
  let w := Sample.world_of Sample.store_with_sessions in
  (Locals ctx "user_id" = AString "u-alice" ∧ Locals ctx "session_id" = AString "s-1") ∧
  ∃ r, (AuthController_Logout ctx w).1 = Done r ∧
    (status r = StatusOK ↔ (Delete "s-1" (db w)).1 = None) ∧
    new_calls w (AuthController_Logout ctx w) = [CallSessionDelete "s-1"].
Proof.
  cbv zeta. split; [split; reflexivity |].
  destruct (logout_status_by_delete
              (Sample.authenticated "s-1" "u-alice")
              (Sample.world_of Sample.store_with_sessions)
              "u-alice" "s-1" eq_refl eq_refl) as (r & Hr & Hok & _ & Hc & _).
  exists r. repeat split; try assumption; apply Hok.
Defined.

(** Mallory's request logs Alice's session out as Alice's own request does. *)
Lemma logout_ignores_user_id_witness :
  let ctx1 := Sample.authenticated "s-1" "u-alice" in
  let ctx2 := Fixture.from_elsewhere "s-1" "u-mallory" in
  let w := Sample.world_of Sample.store_with_sessions in
  Locals ctx1 "user_id" = AString "u-alice" ∧
  Locals ctx2 "user_id" = AString "u-mallory" ∧
  UserId Sample.session_of_alice = "u-alice" ∧
  AuthController_Logout ctx1 w = AuthController_Logout ctx2 w ∧
  session_tbl (db (AuthController_Logout ctx2 w).2) !! "s-1" = None.
Proof.
  cbv zeta.
  pose proof (logout_ignores_user_id
                (Sample.authenticated "s-1" "u-alice")
                (Fixture.from_elsewhere "s-1" "u-mallory")
                (Sample.world_of Sample.store_with_sessions)
                "u-alice" "u-mallory" "s-1" eq_refl eq_refl eq_refl eq_refl) as H.
  split; [reflexivity |]. split; [reflexivity |]. split; [reflexivity |].
  split; [exact H | reflexivity].
Defined.

Lemma validate_session_ignores_client_witness :
  let ctx1 := Sample.authenticated "s-1" "u-alice" in
  let ctx2 := Fixture.from_elsewhere "s-1" "u-alice" in
  let w := Sample.world_of Sample.store_with_sessions in
  IP ctx1 = "10.0.0.1" ∧ IP ctx2 = "203.0.113.9" ∧
  Locals ctx1 "session_id" = Locals ctx2 "session_id" ∧
  Locals ctx1 "user_id" = Locals ctx2 "user_id" ∧
  AuthController_ValidateSession ctx1 w = AuthController_ValidateSession ctx2 w.
Proof.
  cbv zeta.
  split; [reflexivity |]. split; [reflexivity |].
  split; [reflexivity |]. split; [reflexivity |].
  exact (validate_session_ignores_client
           (Sample.authenticated "s-1" "u-alice")
           (Fixture.from_elsewhere "s-1" "u-alice")
           (Sample.world_of Sample.store_with_sessions) eq_refl eq_refl).
Defined.

(** The dialect is matched as written: "SQLite" is not "sqlite". *)
Lemma upSession_unsupported_dialect_witness :
  let cfg := {| Session_Expire := 3600; Database_Dialect := "SQLite" |} in
  (Database_Dialect cfg ≠ "sqlite" ∧ Database_Dialect cfg ≠ "postgres") ∧
  upSession cfg Sample.empty_store =
    (Some (ErrOther "unsupported dialect: SQLite"), Sample.empty_store).
Proof.
  cbv zeta.
  assert (H1 : "SQLite" ≠ "sqlite") by discriminate.
  assert (H2 : "SQLite" ≠ "postgres") by discriminate.
  split; [split; assumption |].
  exact (upSession_unsupported_dialect
           {| Session_Expire := 3600; Database_Dialect := "SQLite" |}
           Sample.empty_store H1 H2).
Defined.

Lemma preferences_round_trip_witness :
  let d := Fixture.two_users in
  let d' := (userRepository_UpdatePreferences "u-bob" "{theme:dark}" 99 d).2 in
  user_exists "u-bob" d = true ∧
  userRepository_GetPreferencesById "u-bob" d = ("", None) ∧
  userRepository_GetPreferencesById "u-bob" d' = ("{theme:dark}", None) ∧
  userRepository_GetPreferencesById "u-alice" d' = ("{}", None).
Proof.
  cbv zeta.
  destruct (preferences_round_trip "u-bob" "{theme:dark}" 99 Fixture.two_users eq_refl)
    as (_ & Hget & Hother).
  split; [reflexivity |]. split; [reflexivity |]. split; [exact Hget |].
  rewrite Hother by discriminate. reflexivity.
Defined.

Lemma UpdatePreferences_unknown_user_is_silent_witness :
  user_exists "u-nobody" Fixture.two_users = false ∧
  userRepository_UpdatePreferences "u-nobody" "{theme:dark}" 99 Fixture.two_users
    = (None, Fixture.two_users) ∧
  userRepository_GetPreferencesById "u-nobody" Fixture.two_users
    = (empty_JSONB, Some ErrRecordNotFound).
Proof.
  split; [reflexivity |].
  exact (UpdatePreferences_unknown_user_is_silent "u-nobody" "{theme:dark}" 99
           Fixture.two_users eq_refl).
Defined.

Lemma UpdatePreferences_keeps_other_columns_witness :
  let d := Fixture.two_users in
  let d' := (userRepository_UpdatePreferences "u-bob" "{theme:dark}" 99 d).2 in
  user_exists "u-bob" d = true ∧
  User_UpdatedAt (userRepository_GetById "u-bob" d).1 = 8 ∧
  User_UpdatedAt (userRepository_GetById "u-bob" d').1 = 99 ∧
  User_Email (userRepository_GetById "u-bob" d').1 = "bob@example.org" ∧
  User_Password (userRepository_GetByEmailOrUsername "bob" d').1 = "h:builder".
Proof.
  cbv zeta.
  destruct (UpdatePreferences_keeps_other_columns "u-bob" "{theme:dark}" 99
              Fixture.two_users eq_refl)
    as (_ & _ & _ & Hmail & _ & _ & Hupd & Hpw & _).
  split; [reflexivity |]. split; [reflexivity |]. split; [exact Hupd |].
  split; [rewrite Hmail; reflexivity | rewrite Hpw; reflexivity].
Defined.
